(** * rest_framework_tus.views: the resumable-upload protocol engine

    A shallow embedding of [src/rest_framework_tus/views.py] (the four
    view mixins [TusHeadMixin], [TusCreateMixin], [TusPatchMixin],
    [TusTerminateMixin] and [UploadViewSet]) together with the properties
    the specification states about them.

    The database table of uploads is a finite map from guid to row, the
    chunk store a finite map from guid to the bytes written so far, and
    the [received] signal a log of the instances it was sent for.  Every
    view is a function from a request and a world to an outcome and a
    world; an exception that leaves the view is an outcome of its own. *)

From Stdlib Require Import ZArith String List Bool Lia.
From stdpp Require Import base option list gmap strings.

Open Scope Z_scope.

Module Tus.

(** ** Data model *)

(** A guid is a UUID, a 128-bit number. *)
Abbreviation Guid := N.

Abbreviation bytes := (list Byte.byte).

(** Modelled from the spec: the [states] module is not under src/; the
    views only name [states.INITIAL] and [states.SAVING].  The five
    states are those of the specification's state machine. *)
Inductive State : Set :=
  | INITIAL
  | RECEIVING
  | SAVING
  | COMPLETED
  | TERMINATED.

#[global] Instance State_eq_dec : EqDecision State.
Proof. solve_decision. Defined.

(** One row of the upload model, with the fields the views read and
    write.  [upload_metadata] is the JSON text [create] stores. *)
Record Upload : Set := mkUpload {
  guid : Guid;
  state : State;
  upload_offset : Z;
  upload_length : Z;
  upload_metadata : string;
  filename : string;
  expires : option Z
}.

Definition set_state (s : State) (u : Upload) : Upload :=
  mkUpload (guid u) s (upload_offset u) (upload_length u)
           (upload_metadata u) (filename u) (expires u).

Definition set_upload_offset (o : Z) (u : Upload) : Upload :=
  mkUpload (guid u) (state u) o (upload_length u)
           (upload_metadata u) (filename u) (expires u).

Definition set_expires (e : option Z) (u : Upload) : Upload :=
  mkUpload (guid u) (state u) (upload_offset u) (upload_length u)
           (upload_metadata u) (filename u) e.

(** The world a view runs in: the upload table, the chunk store, the log
    of [signals.received] (most recent first) and the clock. *)
Record World : Type := mkWorld {
  uploads : gmap N Upload;
  files : gmap N (list Byte.byte);
  received : list N;
  now : Z
}.

Definition set_uploads (m : gmap N Upload) (w : World) : World :=
  mkWorld m (files w) (received w) (now w).

Definition set_files (f : gmap N (list Byte.byte)) (w : World) : World :=
  mkWorld (uploads w) f (received w) (now w).

Definition set_received (l : list N) (w : World) : World :=
  mkWorld (uploads w) (files w) l (now w).

Definition set_now (t : Z) (w : World) : World :=
  mkWorld (uploads w) (files w) (received w) t.

(** The request attributes the views read.  An attribute the middleware
    did not set is [None]; [getattr] supplies the default.
    [req_content_type] is the entry [META['headers']['Content-Type']]
    that [validate_content_type] reads; [req_media_type] is the content
    type of the request itself, on which the framework chooses a parser;
    [req_content_length] is [META['CONTENT_LENGTH']], as the integer it
    stands for; [req_chunk] is the body. *)
Record Request : Set := mkRequest {
  tus_resumable : bool;
  req_upload_length : option Z;
  req_upload_defer_length : option Z;
  req_upload_metadata : option (list (string * string));
  req_upload_offset : option Z;
  req_upload_checksum : option (string * string);
  req_content_type : option string;
  req_media_type : option string;
  req_content_length : option Z;
  req_chunk : bytes
}.

Definition set_content_type (ct : option string) (r : Request) : Request :=
  mkRequest (tus_resumable r) (req_upload_length r)
            (req_upload_defer_length r) (req_upload_metadata r)
            (req_upload_offset r) (req_upload_checksum r) ct
            (req_media_type r) (req_content_length r) (req_chunk r).

Definition set_media_type (mt : option string) (r : Request) : Request :=
  mkRequest (tus_resumable r) (req_upload_length r)
            (req_upload_defer_length r) (req_upload_metadata r)
            (req_upload_offset r) (req_upload_checksum r)
            (req_content_type r) mt (req_content_length r) (req_chunk r).

(** ** Responses *)

Definition HTTP_200_OK : Z := 200.
Definition HTTP_201_CREATED : Z := 201.
Definition HTTP_204_NO_CONTENT : Z := 204.
Definition HTTP_400_BAD_REQUEST : Z := 400.
Definition HTTP_404_NOT_FOUND : Z := 404.
Definition HTTP_409_CONFLICT : Z := 409.
Definition HTTP_413_REQUEST_ENTITY_TOO_LARGE : Z := 413.
Definition CHECKSUM_MISMATCH : Z := 460.

Inductive HeaderValue : Set :=
  | HInt (z : Z)
  | HStr (s : string)
  | HTime (t : Z)
  | HLocation (g : Guid).

(** The response bodies of the views, one constructor per message. *)
Inductive Body : Set :=
  | NoBody
  | MissingHeader (name : string)
  | NotFoundBody
  | InvalidUploadLength (maximum : Z)
  | MissingDeferLength
  | UnsupportedChecksumAlgorithm (algorithm : string)
  | ChecksumMismatch
  | WriteError
  | InvalidContentType (given expected : string)
  | UnableToTerminate (s : State)
  | Serialized (u : Upload).

Record Response : Set := mkResponse {
  data : Body;
  headers : list (string * HeaderValue);
  status : Z
}.

(** The exceptions that leave a view. *)
Inductive Exc : Set :=
  | Http404
  | Conflict
  | AttributeError
  | ValidationError
  | MethodNotAllowed
  | UnsupportedMediaType
  | KeyError
  | TypeError.

Inductive Outcome : Set :=
  | Returned (r : Response)
  | Raised (e : Exc).

(** The status the client sees: the framework's exception handler turns
    [Http404] into 404, [Conflict] into 409, a validation error into 400,
    [MethodNotAllowed] into 405 and [UnsupportedMediaType] into 415; an
    [AttributeError], a [KeyError] and a [TypeError] are server errors. *)
Definition status_of (o : Outcome) : Z :=
  match o with
  | Returned r => status r
  | Raised Http404 => HTTP_404_NOT_FOUND
  | Raised Conflict => HTTP_409_CONFLICT
  | Raised ValidationError => HTTP_400_BAD_REQUEST
  | Raised MethodNotAllowed => 405
  | Raised UnsupportedMediaType => 415
  | Raised AttributeError => 500
  | Raised KeyError => 500
  | Raised TypeError => 500
  end.

(** ** The persistence collaborator *)

Definition get_queryset (w : World) : gmap N Upload := uploads w.

(** [get_object] filters the queryset on [guid = pk]: the row it returns
    carries the guid it was asked for.  [None] is [Http404]. *)
Definition get_object (pk : Guid) (w : World) : option Upload :=
  match get_queryset w !! pk with
  | Some u => if decide (guid u = pk) then Some u else None
  | None => None
  end.

Definition save (u : Upload) (w : World) : World :=
  set_uploads (<[guid u := u]> (uploads w)) w.

(** Modelled from the spec: [perform_destroy] deletes the instance, and
    the model's delete is not under src/.  The record is removed and the
    chunk store discards its partial bytes. *)
Definition perform_destroy (u : Upload) (w : World) : World :=
  set_files (delete (guid u) (files w))
            (set_uploads (delete (guid u) (uploads w)) w).

(** Modelled from the spec: [Upload.get_or_create_temporary_file] is not
    under src/.  It makes sure the chunk store has an entry for the
    upload and returns it, so the [assert] on its result holds. *)
Definition get_or_create_temporary_file (u : Upload) (w : World) : World :=
  match files w !! guid u with
  | Some _ => w
  | None => set_files (<[guid u := []]> (files w)) w
  end.

(** Modelled from the spec: [Upload.start_receiving] is not under src/.
    It is the transition from Initial to Receiving. *)
Definition start_receiving (u : Upload) : Upload := set_state RECEIVING u.

Definition add_expiry_header (upload : Upload)
    (hdrs : list (string * HeaderValue)) : list (string * HeaderValue) :=
  match expires upload with
  | Some t => hdrs ++ [("Upload-Expires"%string, HTime t)]
  | None => hdrs
  end.

(** ** Configuration and external collaborators

    What the views take from modules that are not under src/: the
    settings, the supported checksum algorithms, [utils.checksum_matches]
    and [utils.encode_upload_metadata], the media type of the stream
    parser and the framework's test of a content type against it, the
    JSON codec, the serializer's validation and the chunk store, whose
    append answers ok or error. *)
Record Env : Type := mkEnv {
  TUS_MAX_FILE_SIZE : Z;
  TUS_UPLOAD_EXPIRES : option Z;
  TUS_RESPONSE_BODY_ENABLED : bool;
  tus_api_checksum_algorithms : list string;
  checksum_matches : string -> string -> bytes -> bool;
  encode_upload_metadata : list (string * string) -> string;
  media_type : string;
  media_type_matches : string -> string -> bool;
  json_dumps : list (string * string) -> string;
  json_loads : string -> list (string * string);
  serializer_is_valid : Z -> string -> string -> bool;
  store_append : Guid -> bytes -> bool
}.

Definition has_required_tus_header (request : Request) : bool :=
  tus_resumable request.

(** [dict.get(key, default)] on the metadata mapping. *)
Fixpoint dict_get (key : string) (default : string)
    (d : list (string * string)) : string :=
  match d with
  | [] => default
  | (k, v) :: rest => if String.eqb k key then v else dict_get key default rest
  end.

(** Truth value of a Python string: non-empty. *)
Definition truthy (s : string) : bool :=
  match s with
  | EmptyString => false
  | String _ _ => true
  end.

Section Views.

Context (env : Env).

(** *** TusHeadMixin.info *)
Definition info (request : Request) (pk : Guid) (w : World) : Outcome :=
  if negb (has_required_tus_header request) then
    Returned (mkResponse (MissingHeader "Tus-Resumable") [] HTTP_400_BAD_REQUEST)
  else
    match get_object pk w with
    | None =>
        Returned (mkResponse NotFoundBody
                    [("Cache-Control"%string, HStr "no-store")]
                    HTTP_404_NOT_FOUND)
    | Some upload =>
        let h0 := [("Upload-Offset"%string, HInt (upload_offset upload));
                   ("Cache-Control"%string, HStr "no-store")] in
        let h1 := if 0 <=? upload_length upload
                  then h0 ++ [("Upload-Length"%string, HInt (upload_length upload))]
                  else h0 in
        let h2 := if truthy (upload_metadata upload)
                  then h1 ++ [("Upload-Metadata"%string,
                               HStr (encode_upload_metadata env
                                       (json_loads env (upload_metadata upload))))]
                  else h1 in
        Returned (mkResponse NoBody (add_expiry_header upload h2) HTTP_200_OK)
    end.

(** Modelled from the spec: [perform_create] saves the serializer, and
    the serializer and the model are not under src/.  A new record is
    allocated under an identifier no stored record has, with state
    Initial, offset 0, no expiry, and the metadata as given. *)
Definition perform_create (length : Z) (metadata fname : string)
    (w : World) : Upload * World :=
  let u := mkUpload (fresh (dom (uploads w))) INITIAL 0 length
                    metadata fname None in
  (u, save u w).

(** *** TusCreateMixin.create *)
Definition get_success_headers (u : Upload) : list (string * HeaderValue) :=
  [("Location"%string, HLocation (guid u))].

Definition create (request : Request) (w : World) : Outcome * World :=
  if negb (has_required_tus_header request) then
    (Returned (mkResponse (MissingHeader "Tus-Resumable") [] HTTP_400_BAD_REQUEST), w)
  else
    let upload_length := default (-1) (req_upload_length request) in
    if TUS_MAX_FILE_SIZE env <? upload_length then
      (Returned (mkResponse (InvalidUploadLength (TUS_MAX_FILE_SIZE env)) []
                            HTTP_413_REQUEST_ENTITY_TOO_LARGE), w)
    else if ((upload_length =? 0) || (upload_length <? 0))
            && negb (default (-1) (req_upload_defer_length request) =? 1) then
      (Returned (mkResponse MissingDeferLength [] HTTP_400_BAD_REQUEST), w)
    else
      let upload_metadata := default [] (req_upload_metadata request) in
      let filename := dict_get "filename" EmptyString upload_metadata in
      let metadata := json_dumps env upload_metadata in
      if negb (serializer_is_valid env upload_length metadata filename) then
        (Raised ValidationError, w)
      else
        let '(upload, w1) := perform_create upload_length metadata filename w in
        (* [serializer.data] is computed here, for the headers, and the
           serializer keeps it: the body below is this value *)
        let serializer_data := upload in
        let hdrs := get_success_headers serializer_data in
        let '(upload, w2) :=
          match TUS_UPLOAD_EXPIRES env with
          | Some d =>
              let u' := set_expires (Some (now w1 + d)) upload in
              (u', save u' w1)
          | None => (upload, w1)
          end in
        let hdrs := add_expiry_header upload hdrs in
        if negb (TUS_RESPONSE_BODY_ENABLED env) then
          (Returned (mkResponse NoBody hdrs HTTP_201_CREATED), w2)
        else
          (Returned (mkResponse (Serialized serializer_data) hdrs
                                HTTP_201_CREATED), w2).

(** *** TusPatchMixin *)

(** [TusUploadStreamParser in self.parser_classes], with the
    [parser_classes] of [UploadViewSet]. *)
Definition stream_parser_configured : bool := true.

(** Modelled from the spec: [TusUploadStreamParser] (parsers.py) is not
    under src/.  It hands the body of the request on, as the chunk of the
    Append, under the key [chunk] that the view reads. *)
Definition stream_parser_parse (body : bytes) : list (string * bytes) :=
  [("chunk"%string, body)].

(** [request.data], the framework's: a request without a body is given to
    no parser and its data is empty; a request with a body is given to
    the parser if its content type matches the parser's media type, and
    raises [UnsupportedMediaType] if not. *)
Definition request_data (request : Request)
    : Exc + list (string * bytes) :=
  match req_chunk request with
  | [] => inr []
  | _ :: _ =>
      if media_type_matches env (media_type env)
           (default EmptyString (req_media_type request))
      then inr (stream_parser_parse (req_chunk request))
      else inl UnsupportedMediaType
  end.

(** [d[key]]: a missing key raises [KeyError]. *)
Fixpoint getitem (key : string) (d : list (string * bytes)) : Exc + bytes :=
  match d with
  | [] => inl KeyError
  | (k, v) :: rest => if String.eqb k key then inr v else getitem key rest
  end.

Definition get_chunk (request : Request) : Exc + bytes :=
  if stream_parser_configured then
    match request_data request with
    | inl e => inl e
    | inr d => getitem "chunk" d
    end
  else inr (req_chunk request).

(** [validate_content_type] returns a response for a missing or wrong
    Content-Type and falls off its end, returning nothing, otherwise. *)
Definition validate_content_type (request : Request) : option Response :=
  let content_type := default EmptyString (req_content_type request) in
  if negb (truthy content_type) || negb (String.eqb content_type (media_type env))
  then Some (mkResponse (InvalidContentType content_type (media_type env)) []
                        HTTP_400_BAD_REQUEST)
  else None.

(** Modelled from the spec: [Upload.write_data] is not under src/.  It
    is the write step of Append: the record moves to Saving, the chunk
    store's append is invoked; if that fails the record goes back to the
    state it had and the failure is raised ([None]), with no change of
    offset; if it succeeds the offset grows by the length of the chunk
    and the record moves to Completed when the length is known and
    reached, to Receiving otherwise. *)
Definition write_data (upload : Upload) (chunk : bytes) (chunk_size : Z)
    (w : World) : option Upload * World :=
  let prior := state upload in
  let saving := set_state SAVING upload in
  let w1 := save saving w in
  if store_append env (guid upload) chunk then
    let w2 := set_files (<[guid upload :=
                            default [] (files w1 !! guid upload) ++ chunk]>
                           (files w1)) w1 in
    let offset := upload_offset upload + Z.of_nat (List.length chunk) in
    let target := if (0 <=? upload_length upload)
                     && (offset =? upload_length upload)
                  then COMPLETED else RECEIVING in
    let done := set_state target (set_upload_offset offset saving) in
    (Some done, save done w2)
  else
    (None, save (set_state prior saving) w1).

(** [raise MethodNotAllowed]: the class is raised without the method it
    requires, so what leaves the view is the [TypeError] of building the
    exception. *)
Definition update (request : Request) (pk : Guid) (w : World)
    : Outcome * World :=
  (Raised TypeError, w).

Definition partial_update (request : Request) (pk : Guid) (w : World)
    : Outcome * World :=
  if negb (has_required_tus_header request) then
    (Returned (mkResponse (MissingHeader "Tus-Resumable") [] HTTP_400_BAD_REQUEST), w)
  else
    (* the response of the content type validation is dropped *)
    let _ := validate_content_type request in
    match get_object pk w with
    | None => (Raised Http404, w)
    | Some upload =>
        match req_upload_offset request with
        | None => (Raised AttributeError, w)
        | Some upload_offset_ =>
            if negb (upload_offset_ =? upload_offset upload) then
              (Raised Conflict, w)
            else
              let w := get_or_create_temporary_file upload w in
              let '(upload, w) :=
                if decide (state upload = INITIAL)
                then let u' := start_receiving upload in (u', save u' w)
                else (upload, w) in
              match get_chunk request with
              | inl e => (Raised e, w)
              | inr chunk_bytes =>
              match
                match req_upload_checksum request with
                | Some (algorithm, digest) =>
                    if negb (bool_decide
                               (algorithm ∈ tus_api_checksum_algorithms env))
                    then Some (mkResponse (UnsupportedChecksumAlgorithm algorithm)
                                          [] HTTP_400_BAD_REQUEST)
                    else if negb (checksum_matches env algorithm digest chunk_bytes)
                    then Some (mkResponse ChecksumMismatch [] CHECKSUM_MISMATCH)
                    else None
                | None => None
                end
              with
              | Some rejection => (Returned rejection, w)
              | None =>
                  let chunk_size := default 102400 (req_content_length request) in
                  match write_data upload chunk_bytes chunk_size w with
                  | (None, w) =>
                      (Returned (mkResponse WriteError [] HTTP_400_BAD_REQUEST), w)
                  | (Some upload, w) =>
                      let hdrs := [("Upload-Offset"%string,
                                    HInt (upload_offset upload))] in
                      let w := if upload_length upload =? upload_offset upload
                               then set_received (guid upload :: received w) w
                               else w in
                      let hdrs := add_expiry_header upload hdrs in
                      if negb (TUS_RESPONSE_BODY_ENABLED env) then
                        (Returned (mkResponse NoBody hdrs HTTP_204_NO_CONTENT), w)
                      else
                        (Returned (mkResponse (Serialized upload) hdrs
                                              HTTP_204_NO_CONTENT), w)
                  end
              end
              end
        end
    end.

(** *** TusTerminateMixin.destroy *)
Definition destroy (request : Request) (pk : Guid) (w : World)
    : Outcome * World :=
  match get_object pk w with
  | None => (Raised Http404, w)
  | Some upload =>
      if decide (state upload = SAVING) then
        (Returned (mkResponse (UnableToTerminate (state upload)) []
                              HTTP_409_CONFLICT), w)
      else
        (Returned (mkResponse NoBody [] HTTP_204_NO_CONTENT),
         perform_destroy upload w)
  end.

End Views.

(** ** A concrete deployment, for running the views *)

(** A checksum whose digest is the chunk itself, as text. *)
Definition echo_checksum (algorithm digest : string) (chunk : bytes) : bool :=
  String.eqb digest (string_of_list_byte chunk).

Definition demo_env (store_ok : bool) (expiry : option Z) : Env :=
  {| TUS_MAX_FILE_SIZE := 4294967296;
     TUS_UPLOAD_EXPIRES := expiry;
     TUS_RESPONSE_BODY_ENABLED := false;
     tus_api_checksum_algorithms := ["md5"; "sha1"]%string;
     checksum_matches := echo_checksum;
     encode_upload_metadata := fun _ => EmptyString;
     media_type := "application/offset+octet-stream";
     media_type_matches := String.eqb;
     json_dumps := fun _ => "{}"%string;
     json_loads := fun _ => [];
     serializer_is_valid := fun _ _ _ => true;
     store_append := fun _ _ => store_ok |}.

Definition empty_world (t : Z) : World := mkWorld ∅ ∅ [] t.

(** A world holding the single record [u]. *)
Definition world_with (u : Upload) (t : Z) : World := save u (empty_world t).

Definition demo_upload (s : State) (offset length : Z) (e : option Z) : Upload :=
  mkUpload 1%N s offset length "{}" EmptyString e.

Definition post (length defer : option Z) : Request :=
  mkRequest true length defer None None None None None None [].

Definition patch (offset : Z) (checksum : option (string * string))
    (chunk : bytes) : Request :=
  mkRequest true None None None (Some offset) checksum
            (Some "application/offset+octet-stream"%string)
            (Some "application/offset+octet-stream"%string)
            (Some (Z.of_nat (List.length chunk))) chunk.

Definition head_request : Request :=
  mkRequest true None None None None None None None None [].

Definition delete_request : Request :=
  mkRequest true None None None None None None None None [].

(** The inputs the statements below are run on. *)
Definition fresh_upload_world : World :=
  world_with (demo_upload INITIAL 0 5 None) 0.

Definition bad_checksum_patch : Request :=
  patch 0 (Some ("sha1", "zz")%string) [Byte.x61].

Definition headerless_patch : Request :=
  mkRequest false None None None (Some 0) None None None None [Byte.x61].

Definition complete_upload_world : World :=
  world_with (demo_upload COMPLETED 5 5 None) 0.


(** A record whose expiry, at 5, has passed: the clock reads 10. *)
Definition expired_upload_world : World :=
  world_with (demo_upload RECEIVING 3 5 (Some 5)) 10.

(** ** Vocabulary of the statements *)

(** The expiry cut-off of the specification: [now >= expires_at]. *)
Definition expired (w : World) (u : Upload) : bool :=
  match expires u with
  | Some t => t <=? now w
  | None => false
  end.

Definition headers_of (o : Outcome) : list (string * HeaderValue) :=
  match o with
  | Returned r => headers r
  | Raised _ => []
  end.

(** The record as [partial_update] holds it once the offset check has
    passed and the state has been changed: Receiving if it was Initial,
    as it was otherwise. *)
Definition opened (u : Upload) : Upload :=
  if decide (state u = INITIAL) then start_receiving u else u.

(** The world at that point: the temporary file exists and the change of
    state, if any, is saved. *)
Definition open_world (u : Upload) (w : World) : World :=
  let w1 := get_or_create_temporary_file u w in
  if decide (state u = INITIAL) then save (start_receiving u) w1 else w1.

(** The bytes the chunk store holds for [pk]. *)
Definition stored_bytes (pk : Guid) (w : World) : bytes :=
  default [] (files w !! pk).

(** The same deployment over another chunk store. *)
Definition with_store (f : Guid -> bytes -> bool) (env : Env) : Env :=
  mkEnv (TUS_MAX_FILE_SIZE env) (TUS_UPLOAD_EXPIRES env)
        (TUS_RESPONSE_BODY_ENABLED env) (tus_api_checksum_algorithms env)
        (checksum_matches env) (encode_upload_metadata env) (media_type env)
        (media_type_matches env) (json_dumps env) (json_loads env) (serializer_is_valid env) f.

(** The checksum gate of [partial_update] (lines 186-194): the response
    to a declared checksum that does not pass, if any.  The gate is
    reached only with the chunk read, and the chunk is then the body. *)
Definition checksum_rejection (env : Env) (request : Request)
    : option Response :=
  match req_upload_checksum request with
  | Some (algorithm, digest) =>
      if negb (bool_decide (algorithm ∈ tus_api_checksum_algorithms env))
      then Some (mkResponse (UnsupportedChecksumAlgorithm algorithm)
                            [] HTTP_400_BAD_REQUEST)
      else if negb (checksum_matches env algorithm digest (req_chunk request))
      then Some (mkResponse ChecksumMismatch [] CHECKSUM_MISMATCH)
      else None
  | None => None
  end.

(** ** The OPTIONS metadata *)

(** The protocol constants of the package's [__init__], which is not
    under src/: they are taken as given. *)
Record ApiInfo : Set := mkApiInfo {
  tus_api_version : string;
  tus_api_version_supported : list string;
  tus_api_extensions : list string
}.

(** [sep.join(items)]. *)
Definition join (sep : string) (items : list string) : string :=
  String.concat sep items.

(** *** UploadMetadata.determine_metadata *)
Definition determine_metadata (api : ApiInfo) (env : Env)
    : list (string * HeaderValue) :=
  [("Tus-Resumable", HStr (tus_api_version api));
   ("Tus-Version", HStr (join "," (tus_api_version_supported api)));
   ("Tus-Extension", HStr (join "," (tus_api_extensions api)));
   ("Tus-Max-Size", HInt (TUS_MAX_FILE_SIZE env));
   ("Tus-Checksum-Algorithm",
    HStr (join "," (tus_api_checksum_algorithms env)));
   ("Access-Control-Allow-Origin", HStr "*");
   ("Access-Control-Allow-Methods", HStr "PATCH,HEAD,GET,POST,OPTIONS");
   ("Access-Control-Expose-Headers",
    HStr "Tus-Resumable,upload-length,upload-metadata,Location,Upload-Offset");
   ("Access-Control-Allow-Headers",
    HStr "Tus-Resumable,upload-length,upload-metadata,Location,Upload-Offset,content-type");
   ("Cache-Control", HStr "no-store")]%string.

Definition demo_api : ApiInfo :=
  mkApiInfo "1.0.0" ["1.0.0"]%string
            ["creation"; "creation-defer-length"; "termination";
             "checksum"; "expiration"]%string.

(** [headers[name]], if the key is there. *)
Fixpoint lookup_header (name : string) (hdrs : list (string * HeaderValue))
    : option HeaderValue :=
  match hdrs with
  | [] => None
  | (k, v) :: rest =>
      if String.eqb k name then Some v else lookup_header name rest
  end.

(** Two uploads side by side: 1 is Receiving at 3 of 5, 2 is Saving at
    2 of 9 with an expiry. *)
Definition two_uploads_world : World :=
  mkWorld (<[2%N := mkUpload 2%N SAVING 2 9 "{}" EmptyString (Some 50)]>
             (<[1%N := demo_upload RECEIVING 3 5 None]> ∅))
          (<[2%N := [Byte.x62; Byte.x62]]>
             (<[1%N := [Byte.x61; Byte.x61; Byte.x61]]> ∅))
          [] 7.

(** A deferred-length upload, Receiving at 4. *)
Definition deferred_upload_world : World :=
  world_with (demo_upload RECEIVING 4 (-1) None) 0.

(** The record after a write of [chunk] that the chunk store accepted:
    the offset has grown by the length of the chunk and the state is
    Completed if the known length is reached, Receiving otherwise. *)
Definition appended (u : Upload) (chunk : bytes) : Upload :=
  set_state
    (if (0 <=? upload_length u)
        && (upload_offset u + Z.of_nat (List.length chunk) =? upload_length u)
     then COMPLETED else RECEIVING)
    (set_upload_offset (upload_offset u + Z.of_nat (List.length chunk)) u).

(** The world after such a write to the record under [pk], the received
    signal included. *)
Definition appended_world (pk : Guid) (u' : Upload) (chunk : bytes)
    (w : World) : World :=
  let w' := mkWorld (<[pk := u']> (uploads w))
                    (<[pk := stored_bytes pk w ++ chunk]> (files w))
                    (received w) (now w) in
  if upload_length u' =? upload_offset u'
  then set_received (pk :: received w') w' else w'.

(** An Append without a body that declares a checksum, and an Append
    with a body sent as text/plain. *)
Definition empty_bad_checksum_patch : Request :=
  patch 0 (Some ("sha1", "zz")%string) [].

Definition text_plain_patch : Request :=
  set_media_type (Some "text/plain"%string) (patch 0 None [Byte.x61]).

(** ** Sequences of operations on one upload *)






(** ** Basic facts about the persistence layer *)

Lemma get_object_guid pk w u : get_object pk w = Some u -> guid u = pk.
Proof.
  unfold get_object. destruct (get_queryset w !! pk) as [v|]; [|done].
  case_decide; [|done]. by intros [= ->].
Qed.

Lemma get_object_lookup pk w u :
  get_object pk w = Some u -> uploads w !! pk = Some u.
Proof.
  unfold get_object, get_queryset.
  destruct (uploads w !! pk) as [v|]; [|done].
  case_decide; [|done]. by intros [= ->].
Qed.

Lemma get_object_save u w : get_object (guid u) (save u w) = Some u.
Proof.
  unfold get_object, get_queryset, save; simpl.
  rewrite lookup_insert_eq. by case_decide.
Qed.

Lemma get_object_save_ne u w pk :
  pk <> guid u -> get_object pk (save u w) = get_object pk w.
Proof.
  intros Hne. unfold get_object, get_queryset, save; simpl.
  by rewrite lookup_insert_ne.
Qed.

Lemma get_object_perform_destroy u w :
  get_object (guid u) (perform_destroy u w) = None.
Proof.
  unfold get_object, get_queryset, perform_destroy; simpl.
  by rewrite lookup_delete_eq.
Qed.

Lemma get_object_uploads pk w w' :
  uploads w' = uploads w -> get_object pk w' = get_object pk w.
Proof. unfold get_object, get_queryset. by intros ->. Qed.

Lemma uploads_get_or_create u w :
  uploads (get_or_create_temporary_file u w) = uploads w.
Proof. unfold get_or_create_temporary_file. by destruct (files w !! guid u). Qed.

Lemma received_get_or_create u w :
  received (get_or_create_temporary_file u w) = received w.
Proof. unfold get_or_create_temporary_file. by destruct (files w !! guid u). Qed.

Lemma stored_bytes_get_or_create u w g :
  default [] (files (get_or_create_temporary_file u w) !! g)
  = default [] (files w !! g).
Proof.
  unfold get_or_create_temporary_file.
  destruct (files w !! guid u) eqn:E; [done|]. simpl.
  destruct (decide (guid u = g)) as [<-|Hne].
  - by rewrite lookup_insert_eq, E.
  - by rewrite lookup_insert_ne.
Qed.

(** ** Offset conflicts *)

(** C3: an Append whose expected offset differs from the record's current
    offset raises Conflict and leaves the whole world (upload table, chunk
    store, signal log) exactly as it was. *)
Theorem partial_update_offset_conflict (env : Env) (request : Request)
    (pk : Guid) (w : World) (upload : Upload) (expected : Z) :
  has_required_tus_header request = true ->
  get_object pk w = Some upload ->
  req_upload_offset request = Some expected ->
  expected <> upload_offset upload ->
  partial_update env request pk w = (Raised Conflict, w).
Proof.
  intros Hh Hobj Hoff Hne. unfold partial_update.
  rewrite Hh, Hobj, Hoff. simpl.
  destruct (Z.eqb_spec expected (upload_offset upload)); [contradiction|done].
Qed.

Lemma partial_update_offset_conflict_witness :
  partial_update (demo_env true None) (patch 0 None [Byte.x61]) 1%N
                 (world_with (demo_upload RECEIVING 5 10 None) 0)
  = (Raised Conflict, world_with (demo_upload RECEIVING 5 10 None) 0).
Proof.
  apply (partial_update_offset_conflict (demo_env true None)
           (patch 0 None [Byte.x61]) 1%N
           (world_with (demo_upload RECEIVING 5 10 None) 0)
           (demo_upload RECEIVING 5 10 None) 0).
  - reflexivity.
  - vm_compute. reflexivity.
  - reflexivity.
  - vm_compute. discriminate.
Defined.

(** ** Append up to the write *)

Lemma get_object_open_world pk w u :
  get_object pk w = Some u -> get_object pk (open_world u w) = Some (opened u).
Proof.
  intros Hobj. pose proof (get_object_guid _ _ _ Hobj) as Hg.
  unfold open_world, opened. case_decide.
  - rewrite <- Hg. apply (get_object_save (start_receiving u)).
  - rewrite <- Hobj. apply get_object_uploads, uploads_get_or_create.
Qed.

Lemma stored_bytes_open_world pk w u :
  stored_bytes pk (open_world u w) = stored_bytes pk w.
Proof.
  unfold open_world, stored_bytes. case_decide; simpl;
    apply stored_bytes_get_or_create.
Qed.

Lemma received_open_world w u : received (open_world u w) = received w.
Proof.
  unfold open_world. case_decide; simpl; apply received_get_or_create.
Qed.

Lemma upload_offset_opened u : upload_offset (opened u) = upload_offset u.
Proof. unfold opened. by case_decide. Qed.


Lemma guid_opened u : guid (opened u) = guid u.
Proof. unfold opened. by case_decide. Qed.

(** ** Reading the chunk *)

(** The chunk is read exactly when the request has a body and its
    content type matches the parser's; it is then the body.  Without a
    body the key is missing; with a body of another type the framework
    refuses the request. *)
Lemma get_chunk_cases env request :
  (req_chunk request = [] /\ get_chunk env request = inl KeyError)
  \/ (req_chunk request <> []
      /\ media_type_matches env (media_type env)
           (default EmptyString (req_media_type request)) = false
      /\ get_chunk env request = inl UnsupportedMediaType)
  \/ (req_chunk request <> []
      /\ media_type_matches env (media_type env)
           (default EmptyString (req_media_type request)) = true
      /\ get_chunk env request = inr (req_chunk request)).
Proof.
  unfold get_chunk, request_data, stream_parser_configured.
  destruct (req_chunk request) as [|b body] eqn:Hbody; [by left|].
  right.
  destruct (media_type_matches env _ _); [right|left]; by split.
Qed.

Lemma get_chunk_inr env request chunk :
  get_chunk env request = inr chunk ->
  chunk = req_chunk request /\ chunk <> [].
Proof.
  destruct (get_chunk_cases env request)
    as [[_ Hc] | [(_ & _ & Hc) | (Hne & _ & Hc)]];
    rewrite Hc; [done|done|]. by intros [= <-].
Qed.

Lemma get_chunk_inl env request e :
  get_chunk env request = inl e -> e = KeyError \/ e = UnsupportedMediaType.
Proof.
  destruct (get_chunk_cases env request)
    as [[_ Hc] | [(_ & _ & Hc) | (Hne & _ & Hc)]];
    rewrite Hc; [|  |done]; intros [= <-]; auto.
Qed.

Lemma get_chunk_with_store f env request :
  get_chunk (with_store f env) request = get_chunk env request.
Proof. reflexivity. Qed.

(** Past the offset check, [partial_update] reads the chunk and then is
    the checksum gate followed by the write, run on the opened record. *)
Lemma partial_update_past_offset env request pk w upload :
  has_required_tus_header request = true ->
  get_object pk w = Some upload ->
  req_upload_offset request = Some (upload_offset upload) ->
  partial_update env request pk w
  = match get_chunk env request with
    | inl e => (Raised e, open_world upload w)
    | inr _ =>
    match checksum_rejection env request with
    | Some rejection => (Returned rejection, open_world upload w)
    | None =>
        match write_data env (opened upload) (req_chunk request)
                (default 102400 (req_content_length request))
                (open_world upload w) with
        | (None, w') =>
            (Returned (mkResponse WriteError [] HTTP_400_BAD_REQUEST), w')
        | (Some u', w') =>
            let w'' := if upload_length u' =? upload_offset u'
                       then set_received (guid u' :: received w') w' else w' in
            (Returned (mkResponse
                         (if negb (TUS_RESPONSE_BODY_ENABLED env)
                          then NoBody else Serialized u')
                         (add_expiry_header u'
                            [("Upload-Offset"%string, HInt (upload_offset u'))])
                         HTTP_204_NO_CONTENT), w'')
        end
    end
    end.
Proof.
  intros Hh Hobj Hoff. unfold partial_update, checksum_rejection.
  rewrite Hh, Hobj, Hoff. simpl negb. cbv iota.
  rewrite Z.eqb_refl. simpl negb. cbv iota.
  unfold open_world, opened.
  destruct (get_chunk env request) as [e|chunk] eqn:Hchunk.
  { by destruct (decide (state upload = INITIAL)). }
  apply get_chunk_inr in Hchunk as [-> _].
  destruct (decide (state upload = INITIAL)) as [Hs|Hs].
  all: destruct (req_upload_checksum request) as [[alg digest]|].
  all: try (destruct (bool_decide (alg ∈ tus_api_checksum_algorithms env));
            simpl negb; cbv iota; [|done];
            destruct (checksum_matches env alg digest (req_chunk request));
            simpl negb; cbv iota; [|done]).
  all: match goal with
       | |- context [write_data ?e ?u ?c ?n ?x] =>
           destruct (write_data e u c n x) as [[u'|] w']
       end; [|done].
  all: by destruct (TUS_RESPONSE_BODY_ENABLED env).
Qed.

(** ** Checksum gating *)

Lemma partial_update_rejected env request pk w upload chunk rejection :
  has_required_tus_header request = true ->
  get_object pk w = Some upload ->
  req_upload_offset request = Some (upload_offset upload) ->
  get_chunk env request = inr chunk ->
  checksum_rejection env request = Some rejection ->
  partial_update env request pk w = (Returned rejection, open_world upload w).
Proof.
  intros Hh Hobj Hoff Hchunk Hrej.
  by rewrite (partial_update_past_offset _ _ _ _ _ Hh Hobj Hoff), Hchunk, Hrej.
Qed.

(** When the chunk cannot be read the exception leaves the view, after
    the temporary file and the change of state. *)
Lemma partial_update_unread env request pk w upload e :
  has_required_tus_header request = true ->
  get_object pk w = Some upload ->
  req_upload_offset request = Some (upload_offset upload) ->
  get_chunk env request = inl e ->
  partial_update env request pk w = (Raised e, open_world upload w).
Proof.
  intros Hh Hobj Hoff Hchunk.
  by rewrite (partial_update_past_offset _ _ _ _ _ Hh Hobj Hoff), Hchunk.
Qed.

Lemma checksum_rejection_unsupported env request alg digest :
  req_upload_checksum request = Some (alg, digest) ->
  alg ∉ tus_api_checksum_algorithms env ->
  checksum_rejection env request
  = Some (mkResponse (UnsupportedChecksumAlgorithm alg) [] HTTP_400_BAD_REQUEST).
Proof.
  intros Hc Hn. unfold checksum_rejection. rewrite Hc.
  by rewrite bool_decide_eq_false_2.
Qed.

Lemma checksum_rejection_mismatch env request alg digest :
  req_upload_checksum request = Some (alg, digest) ->
  alg ∈ tus_api_checksum_algorithms env ->
  checksum_matches env alg digest (req_chunk request) = false ->
  checksum_rejection env request
  = Some (mkResponse ChecksumMismatch [] CHECKSUM_MISMATCH).
Proof.
  intros Hc Hin Hm. unfold checksum_rejection. rewrite Hc.
  by rewrite bool_decide_eq_true_2, Hm.
Qed.

Lemma checksum_rejection_status env request r :
  checksum_rejection env request = Some r ->
  status r = HTTP_400_BAD_REQUEST \/ status r = CHECKSUM_MISMATCH.
Proof.
  unfold checksum_rejection.
  destruct (req_upload_checksum request) as [[alg digest]|]; [|done].
  destruct (bool_decide (alg ∈ tus_api_checksum_algorithms env)); simpl.
  - destruct (checksum_matches env alg digest (req_chunk request)); simpl;
      [done|]. intros [= <-]. by right.
  - intros [= <-]. by left.
Qed.

(** C4, as the specification states it, fails: an Append without a body
    whose declared checksum does not match the empty chunk is not
    answered Checksum Mismatch; reading the chunk raises KeyError before
    the checksum is looked at, a server error. *)
Lemma bad_checksum_on_empty_body :
  req_upload_checksum empty_bad_checksum_patch = Some ("sha1", "zz")%string
  /\ checksum_matches (demo_env true None) "sha1" "zz"
       (req_chunk empty_bad_checksum_patch) = false
  /\ (partial_update (demo_env true None) empty_bad_checksum_patch 1%N
        (world_with (demo_upload RECEIVING 0 5 None) 0)).1
     = Raised KeyError
  /\ status_of (partial_update (demo_env true None) empty_bad_checksum_patch
                  1%N (world_with (demo_upload RECEIVING 0 5 None) 0)).1
     <> CHECKSUM_MISMATCH.
Proof. vm_compute. repeat split. discriminate. Qed.

(** C4, amended: take an Append that passes the offset check and declares
    a checksum of an unsupported algorithm, or one that does not match
    the body.  If the chunk is read (the body is not empty and of the
    parser's media type) the answer is the Unsupported Checksum Algorithm
    response for an unsupported algorithm, and the Checksum Mismatch
    response (status 460) for a supported one; if the chunk is not read,
    the exception of reading it leaves the view.  Either way the stored
    offset is what it was, the chunk store holds the bytes it held, and
    the answer is the same over every chunk store: the write is not
    reached. *)
Theorem checksum_gates_write (env : Env) (request : Request) (pk : Guid)
    (w : World) (upload : Upload) (alg digest : string) :
  has_required_tus_header request = true ->
  get_object pk w = Some upload ->
  req_upload_offset request = Some (upload_offset upload) ->
  req_upload_checksum request = Some (alg, digest) ->
  alg ∉ tus_api_checksum_algorithms env
  \/ checksum_matches env alg digest (req_chunk request) = false ->
  (forall chunk,
     get_chunk env request = inr chunk ->
     (partial_update env request pk w).1
     = Returned (if bool_decide (alg ∈ tus_api_checksum_algorithms env)
                 then mkResponse ChecksumMismatch [] CHECKSUM_MISMATCH
                 else mkResponse (UnsupportedChecksumAlgorithm alg) []
                                 HTTP_400_BAD_REQUEST))
  /\ (forall e,
        get_chunk env request = inl e ->
        (partial_update env request pk w).1 = Raised e)
  /\ upload_offset <$> get_object pk (partial_update env request pk w).2
     = Some (upload_offset upload)
  /\ stored_bytes pk (partial_update env request pk w).2 = stored_bytes pk w
  /\ forall f, partial_update (with_store f env) request pk w
               = partial_update env request pk w.
Proof.
  intros Hh Hobj Hoff Hc Hbad.
  assert (checksum_rejection env request
          = Some (if bool_decide (alg ∈ tus_api_checksum_algorithms env)
                  then mkResponse ChecksumMismatch [] CHECKSUM_MISMATCH
                  else mkResponse (UnsupportedChecksumAlgorithm alg) []
                                  HTTP_400_BAD_REQUEST)) as Hrej.
  { case_bool_decide as Hin.
    - destruct Hbad as [Hn|Hm]; [done|].
      by apply (checksum_rejection_mismatch _ _ alg digest).
    - by apply (checksum_rejection_unsupported _ _ alg digest). }
  assert (forall f, partial_update (with_store f env) request pk w
                    = partial_update env request pk w) as Hstore.
  { intros f.
    rewrite !(partial_update_past_offset _ _ _ _ _ Hh Hobj Hoff).
    rewrite get_chunk_with_store.
    change (checksum_rejection (with_store f env) request)
      with (checksum_rejection env request).
    rewrite Hrej. by destruct (get_chunk env request). }
  assert ((partial_update env request pk w).2 = open_world upload w) as Hw.
  { rewrite (partial_update_past_offset _ _ _ _ _ Hh Hobj Hoff), Hrej.
    by destruct (get_chunk env request). }
  split.
  { intros chunk Hchunk.
    by rewrite (partial_update_rejected _ _ _ _ _ _ _ Hh Hobj Hoff Hchunk Hrej). }
  split.
  { intros e Hchunk.
    by rewrite (partial_update_unread _ _ _ _ _ _ Hh Hobj Hoff Hchunk). }
  rewrite Hw. split.
  { rewrite (get_object_open_world _ _ _ Hobj). simpl.
    by rewrite upload_offset_opened. }
  split; [apply stored_bytes_open_world|done].
Qed.

Lemma checksum_gates_write_witness :
  (partial_update (demo_env true None)
     (patch 0 (Some ("sha1", "zz")%string) [Byte.x61]) 1%N
     (world_with (demo_upload RECEIVING 0 5 None) 0)).1
  = Returned (mkResponse ChecksumMismatch [] CHECKSUM_MISMATCH)
  /\ (partial_update (demo_env true None)
        (patch 0 (Some ("crc32", "a")%string) [Byte.x61]) 1%N
        (world_with (demo_upload RECEIVING 0 5 None) 0)).1
     = Returned (mkResponse (UnsupportedChecksumAlgorithm "crc32") []
                            HTTP_400_BAD_REQUEST).
Proof.
  split.
  - refine (proj1 (checksum_gates_write (demo_env true None)
             (patch 0 (Some ("sha1", "zz")%string) [Byte.x61]) 1%N
             (world_with (demo_upload RECEIVING 0 5 None) 0)
             (demo_upload RECEIVING 0 5 None) "sha1" "zz" _ _ _ _ _)
             [Byte.x61] _).
    + reflexivity.
    + vm_compute. reflexivity.
    + reflexivity.
    + reflexivity.
    + right. vm_compute. reflexivity.
    + reflexivity.
  - refine (proj1 (checksum_gates_write (demo_env true None)
             (patch 0 (Some ("crc32", "a")%string) [Byte.x61]) 1%N
             (world_with (demo_upload RECEIVING 0 5 None) 0)
             (demo_upload RECEIVING 0 5 None) "crc32" "a" _ _ _ _ _)
             [Byte.x61] _).
    + reflexivity.
    + vm_compute. reflexivity.
    + reflexivity.
    + reflexivity.
    + left. apply (bool_decide_eq_false_1 _). vm_compute. reflexivity.
    + reflexivity.
Defined.

(** ** Validation and mutation *)

(** C5, as the specification states it, fails: an Append to a record in
    state Initial whose declared checksum does not match is answered with
    Checksum Mismatch, and the stored record is then in state Receiving. *)
Lemma checksum_failure_after_state_change :
  (partial_update (demo_env true None) bad_checksum_patch 1%N
                  fresh_upload_world).1
  = Returned (mkResponse ChecksumMismatch [] CHECKSUM_MISMATCH)
  /\ state <$> get_object 1%N fresh_upload_world = Some INITIAL
  /\ state <$> get_object 1%N
                 (partial_update (demo_env true None) bad_checksum_patch 1%N
                                 fresh_upload_world).2
     = Some RECEIVING
  /\ get_object 1%N (partial_update (demo_env true None) bad_checksum_patch
                                    1%N fresh_upload_world).2
     <> get_object 1%N fresh_upload_world.
Proof. vm_compute. repeat split; discriminate. Qed.

Lemma files_open_world u w :
  files (open_world u w) = files (get_or_create_temporary_file u w).
Proof. unfold open_world. by case_decide. Qed.

(** C5, amended: an Append that fails the offset check changes nothing at
    all.  An Append that passes it, whose chunk is read, and that fails
    the checksum validation (unsupported algorithm or mismatch) leaves
    the record as it was except for its state, which is Receiving if it
    was Initial; the temporary file of the upload has been made if there
    was none, the bytes in the chunk store and the signal log are what
    they were. *)
Theorem validation_failure_effects (env : Env) (request : Request)
    (pk : Guid) (w : World) (upload : Upload) (expected : Z) :
  has_required_tus_header request = true ->
  get_object pk w = Some upload ->
  req_upload_offset request = Some expected ->
  (expected <> upload_offset upload ->
     partial_update env request pk w = (Raised Conflict, w))
  /\ (expected = upload_offset upload ->
       forall chunk rejection,
         get_chunk env request = inr chunk ->
         checksum_rejection env request = Some rejection ->
         (partial_update env request pk w).1 = Returned rejection
         /\ get_object pk (partial_update env request pk w).2
            = Some (if decide (state upload = INITIAL)
                    then set_state RECEIVING upload else upload)
         /\ files (partial_update env request pk w).2
            = files (get_or_create_temporary_file upload w)
         /\ stored_bytes pk (partial_update env request pk w).2
            = stored_bytes pk w
         /\ received (partial_update env request pk w).2 = received w).
Proof.
  intros Hh Hobj Hoff. split.
  - intros Hne. unfold partial_update. rewrite Hh, Hobj, Hoff. simpl.
    destruct (Z.eqb_spec expected (upload_offset upload)); [contradiction|done].
  - intros -> chunk rejection Hchunk Hrej.
    rewrite (partial_update_rejected _ _ _ _ _ _ _ Hh Hobj Hoff Hchunk Hrej).
    simpl.
    split; [done|]. split; [by apply get_object_open_world|].
    split; [apply files_open_world|].
    split; [apply stored_bytes_open_world | apply received_open_world].
Qed.

Lemma validation_failure_effects_witness :
  get_object 1%N (partial_update (demo_env true None) bad_checksum_patch 1%N
                                 fresh_upload_world).2
  = Some (demo_upload RECEIVING 0 5 None).
Proof.
  refine (proj1 (proj2 (proj2 (validation_failure_effects (demo_env true None)
            bad_checksum_patch 1%N fresh_upload_world
            (demo_upload INITIAL 0 5 None) 0 _ _ _) _
            [Byte.x61]
            (mkResponse ChecksumMismatch [] CHECKSUM_MISMATCH) _ _))).
  - reflexivity.
  - vm_compute. reflexivity.
  - reflexivity.
  - reflexivity.
  - reflexivity.
  - vm_compute. reflexivity.
Defined.

(** ** The write *)

Lemma save_saved pk w u : get_object pk w = Some u -> save u w = w.
Proof.
  intros Hobj. pose proof (get_object_guid _ _ _ Hobj) as Hg.
  apply get_object_lookup in Hobj.
  unfold save, set_uploads. rewrite Hg, (insert_id _ _ _ Hobj).
  by destruct w.
Qed.

Lemma save_save u v w : guid u = guid v -> save u (save v w) = save u w.
Proof.
  intros Hg. unfold save, set_uploads; simpl. by rewrite Hg, insert_insert_eq.
Qed.

Lemma write_data_failed env u chunk n w :
  store_append env (guid u) chunk = false ->
  write_data env u chunk n w = (None, save u w).
Proof.
  intros Hf. unfold write_data. rewrite Hf. f_equal.
  replace (set_state (state u) (set_state SAVING u)) with u by by destruct u.
  by apply save_save.
Qed.

Lemma write_data_succeeded env u chunk n w :
  store_append env (guid u) chunk = true ->
  write_data env u chunk n w
  = (Some (set_state
             (if (0 <=? upload_length u)
                 && (upload_offset u + Z.of_nat (List.length chunk)
                     =? upload_length u)
              then COMPLETED else RECEIVING)
             (set_upload_offset
                (upload_offset u + Z.of_nat (List.length chunk)) u)),
     mkWorld
       (<[guid u :=
            set_state
              (if (0 <=? upload_length u)
                  && (upload_offset u + Z.of_nat (List.length chunk)
                      =? upload_length u)
               then COMPLETED else RECEIVING)
              (set_upload_offset
                 (upload_offset u + Z.of_nat (List.length chunk)) u)]>
          (uploads w))
       (<[guid u := stored_bytes (guid u) w ++ chunk]> (files w))
       (received w) (now w)).
Proof.
  intros Hok. unfold write_data. rewrite Hok.
  unfold save, set_uploads, set_files, set_state, set_upload_offset,
    stored_bytes; simpl.
  by rewrite insert_insert_eq.
Qed.

(** What every run of [write_data] leaves behind. *)
Lemma write_data_inv env u chunk n w res w' :
  write_data env u chunk n w = (res, w') ->
  received w' = received w
  /\ match res with
     | Some u' => guid u' = guid u /\ get_object (guid u) w' = Some u'
     | None => True
     end.
Proof.
  destruct (store_append env (guid u) chunk) eqn:Hs.
  - rewrite (write_data_succeeded _ _ _ _ _ Hs). intros [= <- <-]. simpl.
    split; [done|]. split; [done|].
    unfold get_object, get_queryset; simpl. rewrite lookup_insert_eq.
    by case_decide.
  - rewrite (write_data_failed _ _ _ _ _ Hs). by intros [= <- <-].
Qed.

(** ** Append, case by case *)

Lemma get_object_open_world_ne pk w u :
  pk <> guid u -> get_object pk (open_world u w) = get_object pk w.
Proof.
  intros Hne. unfold open_world. case_decide.
  - rewrite get_object_save_ne by done.
    apply get_object_uploads, uploads_get_or_create.
  - apply get_object_uploads, uploads_get_or_create.
Qed.

Lemma appended_opened u chunk : appended (opened u) chunk = appended u chunk.
Proof. unfold opened, start_receiving. case_decide; by destruct u. Qed.

Lemma get_object_appended_world pk u' chunk w :
  guid u' = pk -> get_object pk (appended_world pk u' chunk w) = Some u'.
Proof.
  intros Hg. unfold appended_world, get_object, get_queryset.
  destruct (upload_length u' =? upload_offset u'); simpl;
    rewrite lookup_insert_eq; by case_decide.
Qed.

Lemma get_object_appended_world_ne pk pk' u' chunk w :
  pk' <> pk ->
  get_object pk' (appended_world pk u' chunk w) = get_object pk' w.
Proof.
  intros Hne. unfold appended_world, get_object, get_queryset.
  destruct (upload_length u' =? upload_offset u'); simpl;
    by rewrite lookup_insert_ne.
Qed.

Lemma stored_bytes_appended_world pk pk' u' chunk w :
  stored_bytes pk' (appended_world pk u' chunk w)
  = if decide (pk' = pk) then stored_bytes pk w ++ chunk
    else stored_bytes pk' w.
Proof.
  unfold appended_world, stored_bytes at 1.
  destruct (upload_length u' =? upload_offset u'); simpl;
    (case_decide as Hpk; [subst; by rewrite lookup_insert_eq
                         | by rewrite lookup_insert_ne]).
Qed.

Lemma received_appended_world pk u' chunk w :
  received (appended_world pk u' chunk w)
  = if upload_length u' =? upload_offset u' then pk :: received w
    else received w.
Proof.
  unfold appended_world. by destruct (upload_length u' =? upload_offset u').
Qed.

(** The six ways [partial_update] treats a request that carries the
    Tus-Resumable header and names a stored record. *)
Lemma partial_update_found_cases env request pk w u :
  has_required_tus_header request = true ->
  get_object pk w = Some u ->
  (req_upload_offset request = None
   /\ partial_update env request pk w = (Raised AttributeError, w))
  \/ (exists expected,
        req_upload_offset request = Some expected
        /\ expected <> upload_offset u
        /\ partial_update env request pk w = (Raised Conflict, w))
  \/ (req_upload_offset request = Some (upload_offset u)
      /\ exists e,
           get_chunk env request = inl e
           /\ partial_update env request pk w = (Raised e, open_world u w))
  \/ (req_upload_offset request = Some (upload_offset u)
      /\ get_chunk env request = inr (req_chunk request)
      /\ req_chunk request <> []
      /\ exists r,
           checksum_rejection env request = Some r
           /\ partial_update env request pk w
              = (Returned r, open_world u w))
  \/ (req_upload_offset request = Some (upload_offset u)
      /\ get_chunk env request = inr (req_chunk request)
      /\ req_chunk request <> []
      /\ checksum_rejection env request = None
      /\ store_append env pk (req_chunk request) = false
      /\ partial_update env request pk w
         = (Returned (mkResponse WriteError [] HTTP_400_BAD_REQUEST),
            open_world u w))
  \/ (req_upload_offset request = Some (upload_offset u)
      /\ get_chunk env request = inr (req_chunk request)
      /\ req_chunk request <> []
      /\ checksum_rejection env request = None
      /\ store_append env pk (req_chunk request) = true
      /\ partial_update env request pk w
         = (Returned
              (mkResponse
                 (if negb (TUS_RESPONSE_BODY_ENABLED env) then NoBody
                  else Serialized (appended u (req_chunk request)))
                 (add_expiry_header (appended u (req_chunk request))
                    [("Upload-Offset"%string,
                      HInt (upload_offset (appended u (req_chunk request))))])
                 HTTP_204_NO_CONTENT),
            appended_world pk (appended u (req_chunk request))
              (req_chunk request) (open_world u w))).
Proof.
  intros Hh Hobj. pose proof (get_object_guid _ _ _ Hobj) as Hg.
  destruct (req_upload_offset request) as [expected|] eqn:Hoff.
  2:{ left. split; [done|]. unfold partial_update. by rewrite Hh, Hobj, Hoff. }
  right.
  destruct (Z.eqb_spec expected (upload_offset u)) as [->|Hne].
  2:{ left. exists expected. split; [done|]. split; [done|].
      unfold partial_update. rewrite Hh, Hobj, Hoff. simpl.
      by destruct (Z.eqb_spec expected (upload_offset u)). }
  right.
  pose proof (partial_update_past_offset env _ _ _ _ Hh Hobj Hoff) as Hpu.
  destruct (get_chunk env request) as [e|chunk] eqn:Hchunk.
  { left. split; [done|]. by exists e. }
  right.
  destruct (get_chunk_inr _ _ _ Hchunk) as [-> Hbody].
  destruct (checksum_rejection env request) as [r|] eqn:Hrej.
  { left. split; [done|]. split; [done|]. split; [done|]. by exists r. }
  right.
  destruct (store_append env pk (req_chunk request)) eqn:Hstore.
  - right. do 5 (split; [done|]).
    rewrite Hpu. rewrite write_data_succeeded by by rewrite guid_opened, Hg.
    fold (appended (opened u) (req_chunk request)).
    rewrite appended_opened, guid_opened, Hg.
    replace (guid (appended u (req_chunk request))) with pk by done.
    reflexivity.
  - left. do 5 (split; [done|]).
    rewrite Hpu. rewrite write_data_failed by by rewrite guid_opened, Hg.
    by rewrite (save_saved _ _ _ (get_object_open_world _ _ _ Hobj)).
Qed.

Lemma partial_update_headerless env request pk w :
  has_required_tus_header request = false ->
  partial_update env request pk w
  = (Returned (mkResponse (MissingHeader "Tus-Resumable") []
                          HTTP_400_BAD_REQUEST), w).
Proof. intros Hh. unfold partial_update. by rewrite Hh. Qed.

Lemma partial_update_not_found env request pk w :
  has_required_tus_header request = true ->
  get_object pk w = None ->
  partial_update env request pk w = (Raised Http404, w).
Proof. intros Hh Hobj. unfold partial_update. by rewrite Hh, Hobj. Qed.

Ltac found_cases env request pk w u Hh Hobj :=
  destruct (partial_update_found_cases env request pk w u Hh Hobj)
    as [(Hoff & Hpu)
       |[(expected & Hoff & Hne & Hpu)
        |[(Hoff & e & Hchunk & Hpu)
         |[(Hoff & Hchunk & Hbody & r & Hrej & Hpu)
          |[(Hoff & Hchunk & Hbody & Hrej & Hstore & Hpu)
           |(Hoff & Hchunk & Hbody & Hrej & Hstore & Hpu)]]]]].

(** The status of an exception that reading the chunk raises. *)
Lemma get_chunk_error_status env request e :
  get_chunk env request = inl e ->
  status_of (Raised e) = 500 \/ status_of (Raised e) = 415.
Proof. intros [-> | ->]%get_chunk_inl; [by left|by right]. Qed.

(** What an answer 204 of [partial_update] tells about the request. *)
Lemma partial_update_accepted_inv env request pk w :
  status_of (partial_update env request pk w).1 = HTTP_204_NO_CONTENT ->
  has_required_tus_header request = true
  /\ exists u,
       get_object pk w = Some u
       /\ req_upload_offset request = Some (upload_offset u)
       /\ get_chunk env request = inr (req_chunk request)
       /\ checksum_rejection env request = None
       /\ store_append env pk (req_chunk request) = true.
Proof.
  destruct (has_required_tus_header request) eqn:Hh.
  2:{ by rewrite partial_update_headerless. }
  destruct (get_object pk w) as [u|] eqn:Hobj.
  2:{ by rewrite partial_update_not_found. }
  found_cases env request pk w u Hh Hobj; rewrite Hpu; simpl; try done.
  - by destruct (get_chunk_inl _ _ _ Hchunk) as [-> | ->].
  - by destruct (checksum_rejection_status _ _ _ Hrej) as [-> | ->].
  - intros _. split; [done|]. by exists u.
Qed.

Lemma lookup_upload_offset_header u v :
  lookup_header "Upload-Offset"
    (add_expiry_header u [("Upload-Offset"%string, v)]) = Some v.
Proof. unfold add_expiry_header. by destruct (expires u). Qed.

(** C6, as the specification states it, fails: when the chunk store
    refuses the write of an Append to a record in state Initial, the
    answer carries status 400, the status of a Bad Request such as a
    missing Tus-Resumable header, and the stored record is in state
    Receiving, not back in Initial. *)
Lemma write_failure_is_bad_request :
  status_of (partial_update (demo_env false None) (patch 0 None [Byte.x61])
                            1%N fresh_upload_world).1
  = HTTP_400_BAD_REQUEST
  /\ status_of (partial_update (demo_env false None) headerless_patch
                               1%N fresh_upload_world).1
     = HTTP_400_BAD_REQUEST
  /\ state <$> get_object 1%N fresh_upload_world = Some INITIAL
  /\ state <$> get_object 1%N
                 (partial_update (demo_env false None)
                    (patch 0 None [Byte.x61]) 1%N fresh_upload_world).2
     = Some RECEIVING.
Proof. vm_compute. repeat split. Qed.

(** C6, amended: when the chunk is read, the checksum, if any, passes and
    the chunk store refuses the write, the answer is a 400 Bad Request
    carrying the text of the failure; the stored offset, the bytes in the
    chunk store and the signal log are unchanged, the temporary file of
    the upload has been made if there was none, and the record is as it
    was when the write began: in state Receiving if the request found it
    Initial, in the state it had otherwise. *)
Theorem write_failure_effects (env : Env) (request : Request) (pk : Guid)
    (w : World) (upload : Upload) (chunk : bytes) :
  has_required_tus_header request = true ->
  get_object pk w = Some upload ->
  req_upload_offset request = Some (upload_offset upload) ->
  get_chunk env request = inr chunk ->
  checksum_rejection env request = None ->
  store_append env pk chunk = false ->
  (partial_update env request pk w).1
  = Returned (mkResponse WriteError [] HTTP_400_BAD_REQUEST)
  /\ get_object pk (partial_update env request pk w).2
     = Some (if decide (state upload = INITIAL)
             then set_state RECEIVING upload else upload)
  /\ files (partial_update env request pk w).2
     = files (get_or_create_temporary_file upload w)
  /\ stored_bytes pk (partial_update env request pk w).2 = stored_bytes pk w
  /\ received (partial_update env request pk w).2 = received w.
Proof.
  intros Hh Hobj Hoff Hchunk Hrej Hfail.
  pose proof (get_object_guid _ _ _ Hobj) as Hg.
  pose proof (get_object_open_world _ _ _ Hobj) as Hopen.
  rewrite (partial_update_past_offset _ _ _ _ _ Hh Hobj Hoff), Hchunk, Hrej.
  destruct (get_chunk_inr _ _ _ Hchunk) as [-> _].
  rewrite write_data_failed by by rewrite guid_opened, Hg.
  rewrite (save_saved _ _ _ Hopen). simpl.
  split; [done|]. split; [done|]. split; [apply files_open_world|].
  split; [apply stored_bytes_open_world | apply received_open_world].
Qed.

Lemma write_failure_effects_witness :
  (partial_update (demo_env false None) (patch 0 None [Byte.x61]) 1%N
                  fresh_upload_world).1
  = Returned (mkResponse WriteError [] HTTP_400_BAD_REQUEST).
Proof.
  refine (proj1 (write_failure_effects (demo_env false None)
            (patch 0 None [Byte.x61]) 1%N fresh_upload_world
            (demo_upload INITIAL 0 5 None) [Byte.x61] _ _ _ _ _ _)).
  - reflexivity.
  - vm_compute. reflexivity.
  - reflexivity.
  - reflexivity.
  - reflexivity.
  - reflexivity.
Defined.

(** ** Append to a complete upload *)

(** C2, as the specification states it, fails: on a record in state
    Completed with offset 5 of 5, an Append of one byte at offset 5 is
    answered 204 with Upload-Offset 6, and the stored offset is then 6,
    past the declared length 5. *)
Lemma append_to_complete_upload_succeeds :
  get_object 1%N complete_upload_world = Some (demo_upload COMPLETED 5 5 None)
  /\ (partial_update (demo_env true None) (patch 5 None [Byte.x61]) 1%N
                     complete_upload_world).1
     = Returned (mkResponse NoBody [("Upload-Offset"%string, HInt 6)]
                            HTTP_204_NO_CONTENT)
  /\ upload_offset <$>
       get_object 1%N
         (partial_update (demo_env true None) (patch 5 None [Byte.x61]) 1%N
                         complete_upload_world).2
     = Some 6
  /\ upload_length <$>
       get_object 1%N
         (partial_update (demo_env true None) (patch 5 None [Byte.x61]) 1%N
                         complete_upload_world).2
     = Some 5.
Proof. vm_compute. repeat split. Qed.

(** C2, amended: on a record whose offset equals its declared length, an
    Append with another expected offset raises Conflict and changes
    nothing, and an Append at the current offset whose chunk cannot be
    read (no body, or a body of another media type) fails with the
    exception of reading it, the offset and the stored bytes being what
    they were.  An Append at the current offset whose chunk is read is
    not refused for the upload being complete: if its checksum, if any,
    passes and the chunk store accepts the write, it is answered 204 and
    the stored offset goes past the declared length by the length of the
    chunk. *)
Theorem append_to_complete_upload (env : Env) (request : Request)
    (pk : Guid) (w : World) (upload : Upload) (expected : Z) :
  has_required_tus_header request = true ->
  get_object pk w = Some upload ->
  0 <= upload_length upload ->
  upload_offset upload = upload_length upload ->
  req_upload_offset request = Some expected ->
  (expected <> upload_offset upload ->
     partial_update env request pk w = (Raised Conflict, w))
  /\ (expected = upload_offset upload ->
       forall e,
         get_chunk env request = inl e ->
         (partial_update env request pk w).1 = Raised e
         /\ upload_offset <$> get_object pk (partial_update env request pk w).2
            = Some (upload_offset upload)
         /\ stored_bytes pk (partial_update env request pk w).2
            = stored_bytes pk w)
  /\ (expected = upload_offset upload ->
       forall chunk,
         get_chunk env request = inr chunk ->
         checksum_rejection env request = None ->
         store_append env pk chunk = true ->
         status_of (partial_update env request pk w).1 = HTTP_204_NO_CONTENT
         /\ upload_offset <$> get_object pk (partial_update env request pk w).2
            = Some (upload_length upload + Z.of_nat (List.length chunk))
         /\ upload_length upload
            < upload_length upload + Z.of_nat (List.length chunk)
         /\ stored_bytes pk (partial_update env request pk w).2
            = stored_bytes pk w ++ chunk).
Proof.
  intros Hh Hobj Hlen Hfull Hexp.
  pose proof (get_object_guid _ _ _ Hobj) as Hg.
  split; [|split].
  - intros Hdiff. unfold partial_update. rewrite Hh, Hobj, Hexp. simpl.
    destruct (Z.eqb_spec expected (upload_offset upload)); [contradiction|done].
  - intros -> e0 Hunread.
    rewrite (partial_update_unread _ _ _ _ _ _ Hh Hobj Hexp Hunread). simpl.
    split; [done|]. split; [|apply stored_bytes_open_world].
    rewrite (get_object_open_world _ _ _ Hobj). simpl.
    by rewrite upload_offset_opened.
  - intros -> chunk Hread Hpass Hok.
    destruct (get_chunk_inr _ _ _ Hread) as [-> Hnonempty].
    found_cases env request pk w upload Hh Hobj; try congruence.
    rewrite Hpu. cbn [fst snd status_of status].
    split; [done|].
    rewrite get_object_appended_world by done.
    rewrite stored_bytes_appended_world, decide_True by done.
    rewrite stored_bytes_open_world.
    split; [by rewrite <- Hfull|]. split; [|done].
    destruct (req_chunk request); [done|]. simpl List.length. lia.
Qed.

Lemma append_to_complete_upload_witness :
  status_of (partial_update (demo_env true None) (patch 5 None [Byte.x61])
                            1%N complete_upload_world).1
  = HTTP_204_NO_CONTENT.
Proof.
  refine (proj1 (proj2 (proj2 (append_to_complete_upload (demo_env true None)
            (patch 5 None [Byte.x61]) 1%N complete_upload_world
            (demo_upload COMPLETED 5 5 None) 5 _ _ _ _ _)) _
            [Byte.x61] _ _ _)).
  - reflexivity.
  - vm_compute. reflexivity.
  - vm_compute. discriminate.
  - reflexivity.
  - reflexivity.
  - reflexivity.
  - reflexivity.
  - reflexivity.
  - reflexivity.
Defined.

(** ** The received signal *)











(** ** Expiry *)

(** C1, as the specification states it, fails: a stored record whose
    expiry has passed is found by every operation.  Inspect answers 200
    and discloses its offset, Append writes to it and Terminate removes
    it, where on an id that was never created the three answer Not
    Found. *)
Lemma expired_record_is_served :
  expired expired_upload_world <$> get_object 1%N expired_upload_world
  = Some true
  /\ get_object 2%N expired_upload_world = None
  /\ status_of (info (demo_env true None) head_request 1%N
                     expired_upload_world) = HTTP_200_OK
  /\ status_of (info (demo_env true None) head_request 2%N
                     expired_upload_world) = HTTP_404_NOT_FOUND
  /\ status_of (partial_update (demo_env true None) (patch 3 None [Byte.x61])
                  1%N expired_upload_world).1 = HTTP_204_NO_CONTENT
  /\ status_of (partial_update (demo_env true None) (patch 3 None [Byte.x61])
                  2%N expired_upload_world).1 = HTTP_404_NOT_FOUND
  /\ status_of (destroy delete_request 1%N expired_upload_world).1
     = HTTP_204_NO_CONTENT
  /\ status_of (destroy delete_request 2%N expired_upload_world).1
     = HTTP_404_NOT_FOUND.
Proof. vm_compute. repeat split. Qed.

Lemma partial_update_found env request pk w u :
  get_object pk w = Some u ->
  (partial_update env request pk w).1 <> Raised Http404.
Proof.
  intros Hobj.
  destruct (has_required_tus_header request) eqn:Hh.
  2:{ by rewrite partial_update_headerless. }
  found_cases env request pk w u Hh Hobj; rewrite Hpu; simpl; try done.
  by destruct (get_chunk_inl _ _ _ Hchunk) as [-> | ->].
Qed.

(** C1, amended: Inspect, Append and Terminate answer Not Found, and
    change nothing, on an id under which no record is stored.  Expiry is
    not checked when a record is read: a stored record whose expiry has
    passed is found by all three, and Inspect answers 200 with its
    offset. *)
Theorem not_found_only_when_not_stored (env : Env) (request : Request)
    (pk : Guid) (w : World) :
  has_required_tus_header request = true ->
  (get_object pk w = None ->
     info env request pk w
     = Returned (mkResponse NotFoundBody
                   [("Cache-Control"%string, HStr "no-store")]
                   HTTP_404_NOT_FOUND)
     /\ partial_update env request pk w = (Raised Http404, w)
     /\ destroy request pk w = (Raised Http404, w))
  /\ (forall u,
        get_object pk w = Some u ->
        expired w u = true ->
        status_of (info env request pk w) = HTTP_200_OK
        /\ ("Upload-Offset"%string, HInt (upload_offset u))
             ∈ headers_of (info env request pk w)
        /\ (partial_update env request pk w).1 <> Raised Http404
        /\ (destroy request pk w).1 <> Raised Http404).
Proof.
  intros Hh. split.
  - intros Hobj. unfold info, partial_update, destroy.
    by rewrite Hh, Hobj.
  - intros u Hobj _. split; [|split; [|split]].
    + unfold info. by rewrite Hh, Hobj.
    + unfold info. rewrite Hh, Hobj. simpl.
      unfold add_expiry_header.
      destruct (expires u), (truthy (upload_metadata u)),
        (0 <=? upload_length u); simpl; set_solver.
    + by apply partial_update_found with u.
    + unfold destroy. rewrite Hobj. by case_decide.
Qed.

Lemma not_found_only_when_not_stored_witness :
  status_of (info (demo_env true None) head_request 1%N expired_upload_world)
  = HTTP_200_OK
  /\ partial_update (demo_env true None) (patch 3 None [Byte.x61]) 2%N
       expired_upload_world
     = (Raised Http404, expired_upload_world).
Proof.
  split.
  - refine (proj1 (proj2 (not_found_only_when_not_stored (demo_env true None)
              head_request 1%N expired_upload_world _)
              (demo_upload RECEIVING 3 5 (Some 5)) _ _)).
    + reflexivity.
    + vm_compute. reflexivity.
    + reflexivity.
  - refine (proj1 (proj2 (proj1 (not_found_only_when_not_stored
              (demo_env true None) (patch 3 None [Byte.x61]) 2%N
              expired_upload_world _) _))).
    + reflexivity.
    + vm_compute. reflexivity.
Defined.

(** ** Create *)

Lemma create_zero_length env request w :
  has_required_tus_header request = true ->
  req_upload_length request = Some 0 ->
  0 <= TUS_MAX_FILE_SIZE env ->
  req_upload_defer_length request <> Some 1 ->
  create env request w
  = (Returned (mkResponse MissingDeferLength [] HTTP_400_BAD_REQUEST), w).
Proof.
  intros Hh Hlen Hmax Hdefer. unfold create. rewrite Hh, Hlen. simpl.
  destruct (Z.ltb_spec (TUS_MAX_FILE_SIZE env) 0) as [|_]; [lia|].
  destruct (req_upload_defer_length request) as [d|]; simpl; [|done].
  destruct (Z.eqb_spec d 1) as [->|]; [by destruct Hdefer|done].
Qed.

(** C8: the code at the failing input.  A Create that declares length 0
    and carries no defer signal is answered 400, missing defer length,
    and creates no record, where the same Create with declared length 1
    is answered 201. *)
Theorem create_zero_length_rejected :
  create (demo_env true None) (post (Some 0) None) (empty_world 0)
  = (Returned (mkResponse MissingDeferLength [] HTTP_400_BAD_REQUEST),
     empty_world 0)
  /\ status_of (create (demo_env true None) (post (Some 1) None)
                       (empty_world 0)).1 = HTTP_201_CREATED.
Proof.
  split; [|vm_compute; reflexivity].
  apply create_zero_length; [reflexivity|reflexivity|done|discriminate].
Qed.

(** A Create that declares a positive length within the maximum needs no
    defer signal: it is answered 201 and stores a new record in state
    Initial with offset 0 under an identifier that was free. *)
Lemma create_positive_length env request w n :
  has_required_tus_header request = true ->
  req_upload_length request = Some n ->
  0 < n <= TUS_MAX_FILE_SIZE env ->
  serializer_is_valid env n
    (json_dumps env (default [] (req_upload_metadata request)))
    (dict_get "filename" EmptyString (default [] (req_upload_metadata request)))
  = true ->
  status_of (create env request w).1 = HTTP_201_CREATED
  /\ exists u,
       get_object (guid u) (create env request w).2 = Some u
       /\ get_object (guid u) w = None
       /\ state u = INITIAL /\ upload_offset u = 0 /\ upload_length u = n.
Proof.
  intros Hh Hlen [Hpos Hmax] Hvalid. unfold create. rewrite Hh, Hlen. simpl.
  destruct (Z.ltb_spec (TUS_MAX_FILE_SIZE env) n) as [|_]; [lia|].
  destruct (Z.eqb_spec n 0) as [|_]; [lia|].
  destruct (Z.ltb_spec n 0) as [|_]; [lia|]. simpl.
  rewrite Hvalid. simpl.
  assert (get_object (fresh (dom (uploads w))) w = None) as Hfree.
  { unfold get_object, get_queryset.
    by rewrite (not_elem_of_dom_1 _ _ (is_fresh (dom (uploads w)))). }
  destruct (TUS_UPLOAD_EXPIRES env) as [d|];
    destruct (TUS_RESPONSE_BODY_ENABLED env); simpl;
    (split; [done|]); eexists; (split; [apply get_object_save|]); done.
Qed.

(** ** Terminate *)

(** C9: for a found record in state Saving, Terminate answers 409 Conflict
    and removes nothing; for a found record in any other state (Completed
    included) it removes the record and answers 204. *)
Theorem destroy_found (request : Request) (pk : Guid)
    (w : World) (upload : Upload) :
  get_object pk w = Some upload ->
  (state upload = SAVING ->
     destroy request pk w
     = (Returned (mkResponse (UnableToTerminate SAVING) [] HTTP_409_CONFLICT), w))
  /\ (state upload <> SAVING ->
       destroy request pk w
       = (Returned (mkResponse NoBody [] HTTP_204_NO_CONTENT),
          perform_destroy upload w)
       /\ uploads (perform_destroy upload w) = delete pk (uploads w)
       /\ get_object pk (perform_destroy upload w) = None).
Proof.
  intros Hobj. pose proof (get_object_guid _ _ _ Hobj) as Hg.
  unfold destroy. rewrite Hobj. split; intros Hs.
  - case_decide; [|done]. by rewrite Hs.
  - case_decide; [done|]. split; [done|]. split.
    + unfold perform_destroy; simpl. by rewrite Hg.
    + rewrite <- Hg. apply get_object_perform_destroy.
Qed.

Lemma destroy_found_witness :
  destroy delete_request 1%N
          (world_with (demo_upload SAVING 3 5 None) 0)
  = (Returned (mkResponse (UnableToTerminate SAVING) [] HTTP_409_CONFLICT),
     world_with (demo_upload SAVING 3 5 None) 0)
  /\ get_object 1%N
       (perform_destroy (demo_upload COMPLETED 5 5 None)
          (world_with (demo_upload COMPLETED 5 5 None) 0)) = None.
Proof.
  split.
  - apply (proj1 (destroy_found delete_request 1%N
                    (world_with (demo_upload SAVING 3 5 None) 0)
                    (demo_upload SAVING 3 5 None) eq_refl)).
    reflexivity.
  - apply (proj2 (destroy_found delete_request 1%N
                    (world_with (demo_upload COMPLETED 5 5 None) 0)
                    (demo_upload COMPLETED 5 5 None) eq_refl)).
    discriminate.
Defined.

(** ** Content-Type *)

(** C10, as the specification states it, fails: an Append is rejected
    because of its content type.  The same one-byte Append at offset 0
    is answered 204 when it is sent with the parser's media type and
    raises UnsupportedMediaType, status 415, when it is sent as
    text/plain. *)
Lemma foreign_media_type_rejected :
  text_plain_patch
  = set_media_type (Some "text/plain"%string) (patch 0 None [Byte.x61])
  /\ status_of (partial_update (demo_env true None) (patch 0 None [Byte.x61])
                  1%N fresh_upload_world).1 = HTTP_204_NO_CONTENT
  /\ (partial_update (demo_env true None) text_plain_patch 1%N
                     fresh_upload_world).1 = Raised UnsupportedMediaType
  /\ status_of (partial_update (demo_env true None) text_plain_patch 1%N
                  fresh_upload_world).1 = 415.
Proof. vm_compute. repeat split. Qed.

(** C10, amended: for a request whose Content-Type entry, the one
    [validate_content_type] reads, is missing or is not the media type of
    the stream parser, [validate_content_type] builds a 400 response, but
    [partial_update] drops it: that entry has no effect on the answer or
    on the world.  The content type of the request itself has one: an
    Append with a body whose content type does not match the parser's
    media type passes the offset check and then raises
    UnsupportedMediaType when the chunk is read, the stored offset being
    what it was. *)
Theorem content_type_validation_discarded (env : Env) (request : Request)
    (pk : Guid) (w : World) :
  req_content_type request <> Some (media_type env) ->
  validate_content_type env request
  = Some (mkResponse
            (InvalidContentType (default EmptyString (req_content_type request))
                                (media_type env))
            [] HTTP_400_BAD_REQUEST)
  /\ (forall ct,
        partial_update env (set_content_type ct request) pk w
        = partial_update env request pk w)
  /\ (forall u,
        has_required_tus_header request = true ->
        get_object pk w = Some u ->
        req_upload_offset request = Some (upload_offset u) ->
        req_chunk request <> [] ->
        media_type_matches env (media_type env)
          (default EmptyString (req_media_type request)) = false ->
        (partial_update env request pk w).1 = Raised UnsupportedMediaType
        /\ upload_offset <$> get_object pk (partial_update env request pk w).2
           = Some (upload_offset u)).
Proof.
  intros Hct. split; [|split].
  - unfold validate_content_type.
    destruct (req_content_type request) as [ct|]; [|done].
    destruct ct as [|a ct]; [done|].
    change (default EmptyString (Some (String a ct))) with (String a ct).
    destruct (String.eqb_spec (String a ct) (media_type env)) as [Heq|Hneq].
    + by rewrite Heq in Hct.
    + done.
  - reflexivity.
  - intros u Hh Hobj Hoff0 Hbody0 Hno.
    destruct (get_chunk_cases env request)
      as [[Hempty _] | [(_ & _ & Hc) | (_ & Hyes & _)]];
      [done| |congruence].
    rewrite (partial_update_unread _ _ _ _ _ _ Hh Hobj Hoff0 Hc). simpl.
    split; [done|].
    rewrite (get_object_open_world _ _ _ Hobj). simpl.
    by rewrite upload_offset_opened.
Qed.

Lemma content_type_validation_discarded_witness :
  validate_content_type (demo_env true None)
    (set_content_type (Some "text/plain"%string) text_plain_patch)
  = Some (mkResponse
            (InvalidContentType "text/plain" "application/offset+octet-stream")
            [] HTTP_400_BAD_REQUEST)
  /\ (partial_update (demo_env true None)
        (set_content_type (Some "text/plain"%string) text_plain_patch)
        1%N fresh_upload_world).1 = Raised UnsupportedMediaType.
Proof.
  split.
  - refine (proj1 (content_type_validation_discarded (demo_env true None)
              (set_content_type (Some "text/plain"%string) text_plain_patch)
              1%N fresh_upload_world _)).
    vm_compute. discriminate.
  - refine (proj1 (proj2 (proj2 (content_type_validation_discarded
              (demo_env true None)
              (set_content_type (Some "text/plain"%string) text_plain_patch)
              1%N fresh_upload_world _))
              (demo_upload INITIAL 0 5 None) _ _ _ _ _)).
    + vm_compute. discriminate.
    + reflexivity.
    + vm_compute. reflexivity.
    + reflexivity.
    + discriminate.
    + reflexivity.
Defined.

(** ** The scenarios of the specification *)

(** Scenario A: declared length 100; 40 bytes at offset 0 leave the
    record Receiving at 40, 60 more at offset 40 leave it Completed at
    100. *)
Example scenario_a :
  get_object 1%N
    (partial_update (demo_env true None)
       (patch 0 None (repeat Byte.x00 40)) 1%N
       (world_with (demo_upload INITIAL 0 100 None) 0)).2
  = Some (demo_upload RECEIVING 40 100 None)
  /\ get_object 1%N
       (partial_update (demo_env true None)
          (patch 40 None (repeat Byte.x00 60)) 1%N
          (partial_update (demo_env true None)
             (patch 0 None (repeat Byte.x00 40)) 1%N
             (world_with (demo_upload INITIAL 0 100 None) 0)).2).2
     = Some (demo_upload COMPLETED 100 100 None).
Proof. vm_compute. split; reflexivity. Qed.

(** Scenario B: declared length 10; after 5 bytes at offset 0, a second
    Append at the stale offset 0 raises Conflict and the offset stays 5. *)
Example scenario_b :
  partial_update (demo_env true None) (patch 0 None (repeat Byte.x00 5)) 1%N
    (partial_update (demo_env true None) (patch 0 None (repeat Byte.x00 5))
       1%N (world_with (demo_upload INITIAL 0 10 None) 0)).2
  = (Raised Conflict,
     (partial_update (demo_env true None) (patch 0 None (repeat Byte.x00 5))
        1%N (world_with (demo_upload INITIAL 0 10 None) 0)).2)
  /\ upload_offset <$>
       get_object 1%N
         (partial_update (demo_env true None)
            (patch 0 None (repeat Byte.x00 5)) 1%N
            (world_with (demo_upload INITIAL 0 10 None) 0)).2
     = Some 5.
Proof. vm_compute. split; reflexivity. Qed.

(** Scenario C: deferred length; 20 bytes at offset 0 under a wrong
    checksum are answered Checksum Mismatch and the offset stays 0. *)
Example scenario_c :
  (partial_update (demo_env true None)
     (patch 0 (Some ("sha1", "wrong")%string) (repeat Byte.x00 20)) 1%N
     (world_with (demo_upload INITIAL 0 (-1) None) 0)).1
  = Returned (mkResponse ChecksumMismatch [] CHECKSUM_MISMATCH)
  /\ upload_offset <$>
       get_object 1%N
         (partial_update (demo_env true None)
            (patch 0 (Some ("sha1", "wrong")%string) (repeat Byte.x00 20)) 1%N
            (world_with (demo_upload INITIAL 0 (-1) None) 0)).2
     = Some 0.
Proof. vm_compute. split; reflexivity. Qed.

(** * Further properties of the views *)

(** ** The Tus-Resumable header *)

(** X1: a request without the Tus-Resumable header is answered 400 by
    [info], [create] and [partial_update] before anything else is looked
    at, the record included, and the world is left as it was. *)
Theorem tus_header_checked_first (env : Env) (request : Request)
    (pk : Guid) (w : World) :
  has_required_tus_header request = false ->
  info env request pk w
  = Returned (mkResponse (MissingHeader "Tus-Resumable") [] HTTP_400_BAD_REQUEST)
  /\ create env request w
     = (Returned (mkResponse (MissingHeader "Tus-Resumable") []
                             HTTP_400_BAD_REQUEST), w)
  /\ partial_update env request pk w
     = (Returned (mkResponse (MissingHeader "Tus-Resumable") []
                             HTTP_400_BAD_REQUEST), w).
Proof.
  intros Hh. unfold info, create, partial_update. by rewrite Hh.
Qed.

Lemma tus_header_checked_first_witness :
  partial_update (demo_env true None) headerless_patch 2%N fresh_upload_world
  = (Returned (mkResponse (MissingHeader "Tus-Resumable") []
                          HTTP_400_BAD_REQUEST), fresh_upload_world).
Proof.
  refine (proj2 (proj2 (tus_header_checked_first (demo_env true None)
            headerless_patch 2%N fresh_upload_world _))).
  reflexivity.
Defined.

(** ** Inspect *)

(** X2: for a found record, [info] answers 200 without a body; the
    headers give the offset, give the length only when it is not
    deferred (not negative), give the metadata only when the stored text
    is not empty, and give the expiry only when the record has one. *)
Theorem info_found_headers (env : Env) (request : Request) (pk : Guid)
    (w : World) (u : Upload) :
  has_required_tus_header request = true ->
  get_object pk w = Some u ->
  exists hdrs,
    info env request pk w = Returned (mkResponse NoBody hdrs HTTP_200_OK)
    /\ lookup_header "Upload-Offset" hdrs = Some (HInt (upload_offset u))
    /\ lookup_header "Upload-Length" hdrs
       = (if 0 <=? upload_length u then Some (HInt (upload_length u)) else None)
    /\ lookup_header "Upload-Metadata" hdrs
       = (if truthy (upload_metadata u)
          then Some (HStr (encode_upload_metadata env
                             (json_loads env (upload_metadata u))))
          else None)
    /\ lookup_header "Upload-Expires" hdrs = HTime <$> expires u.
Proof.
  intros Hh Hobj. unfold info. rewrite Hh, Hobj. simpl negb. cbv iota.
  eexists. split; [reflexivity|]. unfold add_expiry_header.
  destruct (0 <=? upload_length u), (truthy (upload_metadata u)),
    (expires u); repeat split.
Qed.

Lemma info_found_headers_witness :
  exists hdrs,
    info (demo_env true None) head_request 1%N deferred_upload_world
    = Returned (mkResponse NoBody hdrs HTTP_200_OK)
    /\ lookup_header "Upload-Offset" hdrs = Some (HInt 4)
    /\ lookup_header "Upload-Length" hdrs = None
    /\ lookup_header "Upload-Metadata" hdrs = Some (HStr EmptyString)
    /\ lookup_header "Upload-Expires" hdrs = None.
Proof.
  refine (info_found_headers (demo_env true None) head_request 1%N
            deferred_upload_world (demo_upload RECEIVING 4 (-1) None) _ _).
  - reflexivity.
  - vm_compute. reflexivity.
Defined.

(** X3: every answer of [info] to a request that carries the
    Tus-Resumable header, the 404 for an unknown id as much as the 200,
    carries Cache-Control: no-store. *)
Theorem info_never_cached (env : Env) (request : Request) (pk : Guid)
    (w : World) :
  has_required_tus_header request = true ->
  lookup_header "Cache-Control" (headers_of (info env request pk w))
  = Some (HStr "no-store").
Proof.
  intros Hh. unfold info. rewrite Hh. simpl negb. cbv iota.
  destruct (get_object pk w) as [u|]; [|reflexivity].
  unfold add_expiry_header.
  by destruct (0 <=? upload_length u), (truthy (upload_metadata u)),
    (expires u).
Qed.

Lemma info_never_cached_witness :
  lookup_header "Cache-Control"
    (headers_of (info (demo_env true None) head_request 9%N
                      fresh_upload_world))
  = Some (HStr "no-store").
Proof.
  refine (info_never_cached (demo_env true None) head_request 9%N
            fresh_upload_world _).
  reflexivity.
Defined.

(** ** Create *)

Lemma get_object_fresh w : get_object (fresh (dom (uploads w))) w = None.
Proof.
  unfold get_object, get_queryset.
  by rewrite (not_elem_of_dom_1 _ _ (is_fresh (dom (uploads w)))).
Qed.

(** The accepting run of [create], in one piece. *)
Lemma create_accepted env request w :
  has_required_tus_header request = true ->
  default (-1) (req_upload_length request) <= TUS_MAX_FILE_SIZE env ->
  0 < default (-1) (req_upload_length request)
  \/ req_upload_defer_length request = Some 1 ->
  serializer_is_valid env (default (-1) (req_upload_length request))
    (json_dumps env (default [] (req_upload_metadata request)))
    (dict_get "filename" EmptyString (default [] (req_upload_metadata request)))
  = true ->
  exists u,
    u = mkUpload (fresh (dom (uploads w))) INITIAL 0
          (default (-1) (req_upload_length request))
          (json_dumps env (default [] (req_upload_metadata request)))
          (dict_get "filename" EmptyString
             (default [] (req_upload_metadata request)))
          ((fun d => now w + d) <$> TUS_UPLOAD_EXPIRES env)
    /\ create env request w
       = (Returned (mkResponse
                      (if negb (TUS_RESPONSE_BODY_ENABLED env)
                       then NoBody else Serialized (set_expires None u))
                      (add_expiry_header u
                         [("Location"%string, HLocation (guid u))])
                      HTTP_201_CREATED),
          save u w).
Proof.
  intros Hh Hmax Hdefer Hvalid. eexists. split; [reflexivity|].
  unfold create. rewrite Hh. simpl negb. cbv iota zeta.
  destruct (Z.ltb_spec (TUS_MAX_FILE_SIZE env)
              (default (-1) (req_upload_length request))) as [|_]; [lia|].
  replace (((default (-1) (req_upload_length request) =? 0)
            || (default (-1) (req_upload_length request) <? 0))
           && negb (default (-1) (req_upload_defer_length request) =? 1))
    with false.
  2:{ destruct Hdefer as [Hpos| ->].
      - destruct (Z.eqb_spec (default (-1) (req_upload_length request)) 0);
          [lia|].
        destruct (Z.ltb_spec (default (-1) (req_upload_length request)) 0);
          [lia|done].
      - simpl. by rewrite andb_false_r. }
  rewrite Hvalid. simpl negb. cbv iota. unfold perform_create.
  destruct (TUS_UPLOAD_EXPIRES env) as [d|]; simpl.
  - rewrite save_save by done.
    by destruct (TUS_RESPONSE_BODY_ENABLED env).
  - by destruct (TUS_RESPONSE_BODY_ENABLED env).
Qed.

(** What an answer 201 of [create] tells about the request. *)
Lemma create_created_inv env request w :
  status_of (create env request w).1 = HTTP_201_CREATED ->
  has_required_tus_header request = true
  /\ default (-1) (req_upload_length request) <= TUS_MAX_FILE_SIZE env
  /\ (0 < default (-1) (req_upload_length request)
      \/ req_upload_defer_length request = Some 1)
  /\ serializer_is_valid env (default (-1) (req_upload_length request))
       (json_dumps env (default [] (req_upload_metadata request)))
       (dict_get "filename" EmptyString
          (default [] (req_upload_metadata request)))
     = true.
Proof.
  unfold create.
  destruct (has_required_tus_header request); [|done]. simpl negb. cbv iota zeta.
  destruct (Z.ltb_spec (TUS_MAX_FILE_SIZE env)
              (default (-1) (req_upload_length request))) as [|Hmax]; [done|].
  destruct (((default (-1) (req_upload_length request) =? 0)
             || (default (-1) (req_upload_length request) <? 0))
            && negb (default (-1) (req_upload_defer_length request) =? 1))
    eqn:Hgate; [done|].
  destruct (serializer_is_valid env _ _ _) eqn:Hvalid; [|done].
  intros _. split; [done|]. split; [done|]. split; [|done].
  apply andb_false_iff in Hgate as [Hlen|Hdefer].
  - apply orb_false_iff in Hlen as [H0 Hneg]. left.
    apply Z.eqb_neq in H0. apply Z.ltb_ge in Hneg. lia.
  - right. apply negb_false_iff, Z.eqb_eq in Hdefer.
    destruct (req_upload_defer_length request) as [d|]; simpl in Hdefer;
      [by subst|done].
Qed.

(** X4: [create] answers 413 exactly when the request carries the
    Tus-Resumable header and declares a length above the Tus-Max-Size
    that [determine_metadata] advertises; no record is created then. *)
Theorem create_too_large_iff (api : ApiInfo) (env : Env) (request : Request)
    (w : World) :
  (status_of (create env request w).1 = HTTP_413_REQUEST_ENTITY_TOO_LARGE
   <-> has_required_tus_header request = true
       /\ exists m,
            lookup_header "Tus-Max-Size" (determine_metadata api env)
            = Some (HInt m)
            /\ m < default (-1) (req_upload_length request))
  /\ (status_of (create env request w).1 = HTTP_413_REQUEST_ENTITY_TOO_LARGE ->
      (create env request w).2 = w).
Proof.
  assert (status_of (create env request w).1
          = HTTP_413_REQUEST_ENTITY_TOO_LARGE
          <-> has_required_tus_header request = true
              /\ TUS_MAX_FILE_SIZE env
                 < default (-1) (req_upload_length request)) as Hiff.
  { unfold create.
    destruct (has_required_tus_header request); simpl negb; cbv iota zeta.
    2:{ split; [done|]. by intros [? _]. }
    destruct (Z.ltb_spec (TUS_MAX_FILE_SIZE env)
                (default (-1) (req_upload_length request))) as [Hgt|Hle];
      [done|].
    split; [|intros [_ ?]; lia].
    destruct (_ && _); [done|].
    destruct (serializer_is_valid env _ _ _); simpl; [|done].
    unfold perform_create.
    by destruct (TUS_UPLOAD_EXPIRES env), (TUS_RESPONSE_BODY_ENABLED env). }
  split.
  - rewrite Hiff. split.
    + intros [Hh Hgt]. split; [done|]. by exists (TUS_MAX_FILE_SIZE env).
    + intros [Hh (m & Hm & Hgt)]. split; [done|].
      by injection Hm as ->.
  - intros [Hh Hgt]%Hiff. unfold create. rewrite Hh. simpl negb. cbv iota zeta.
    by destruct (Z.ltb_spec (TUS_MAX_FILE_SIZE env)
                   (default (-1) (req_upload_length request))); [|lia].
Qed.

(** X5: an answer of [create] other than 201 (400, 413, a validation
    error) leaves the world as it was: no record is created. *)
Theorem create_rejected_no_record (env : Env) (request : Request)
    (w : World) :
  status_of (create env request w).1 <> HTTP_201_CREATED ->
  (create env request w).2 = w.
Proof.
  unfold create.
  destruct (has_required_tus_header request); [|done]. simpl negb. cbv iota zeta.
  destruct (_ <? _); [done|].
  destruct (_ && _); [done|].
  destruct (serializer_is_valid env _ _ _); simpl; [|done].
  unfold perform_create.
  by destruct (TUS_UPLOAD_EXPIRES env), (TUS_RESPONSE_BODY_ENABLED env).
Qed.

Lemma create_rejected_no_record_witness :
  (create (demo_env true None) (post (Some 4294967297) (Some 1))
          fresh_upload_world).2 = fresh_upload_world.
Proof.
  refine (create_rejected_no_record (demo_env true None)
            (post (Some 4294967297) (Some 1)) fresh_upload_world _).
  vm_compute. discriminate.
Defined.

Lemma info_found env request pk w u :
  has_required_tus_header request = true ->
  get_object pk w = Some u ->
  status_of (info env request pk w) = HTTP_200_OK
  /\ lookup_header "Upload-Offset" (headers_of (info env request pk w))
     = Some (HInt (upload_offset u))
  /\ lookup_header "Upload-Length" (headers_of (info env request pk w))
     = (if 0 <=? upload_length u then Some (HInt (upload_length u)) else None).
Proof.
  intros Hh Hobj. unfold info. rewrite Hh, Hobj. simpl negb. cbv iota.
  unfold add_expiry_header.
  by destruct (0 <=? upload_length u), (truthy (upload_metadata u)),
    (expires u).
Qed.

(** X6: when [create] answers 201, its Location header names a record
    that was not stored before and is stored now, in state Initial at
    offset 0 with the declared length (-1 when none was declared).  With
    an expiry configured the record expires at the clock plus that
    duration, and the Upload-Expires header says so; without one there is
    no expiry and no such header.  Every other record is as it was. *)
Theorem create_stores_one_record (env : Env) (request : Request) (w : World) :
  status_of (create env request w).1 = HTTP_201_CREATED ->
  exists u,
    lookup_header "Location" (headers_of (create env request w).1)
    = Some (HLocation (guid u))
    /\ get_object (guid u) w = None
    /\ get_object (guid u) (create env request w).2 = Some u
    /\ state u = INITIAL
    /\ upload_offset u = 0
    /\ upload_length u = default (-1) (req_upload_length request)
    /\ expires u = (fun d => now w + d) <$> TUS_UPLOAD_EXPIRES env
    /\ lookup_header "Upload-Expires" (headers_of (create env request w).1)
       = HTime <$> expires u
    /\ forall pk, pk <> guid u ->
         get_object pk (create env request w).2 = get_object pk w.
Proof.
  intros (Hh & Hmax & Hdefer & Hvalid)%create_created_inv.
  destruct (create_accepted _ _ w Hh Hmax Hdefer Hvalid) as (u & Hu & ->).
  exists u. cbn [fst snd headers_of headers].
  assert (guid u = fresh (dom (uploads w))) as Hg by by rewrite Hu.
  split. { unfold add_expiry_header. by destruct (expires u). }
  split. { rewrite Hg. apply get_object_fresh. }
  split; [apply get_object_save|].
  split; [by rewrite Hu|]. split; [by rewrite Hu|]. split; [by rewrite Hu|].
  split; [by rewrite Hu|].
  split. { unfold add_expiry_header. by destruct (expires u). }
  intros pk Hne. by apply get_object_save_ne.
Qed.

Lemma create_stores_one_record_witness :
  exists u,
    lookup_header "Location"
      (headers_of (create (demo_env true (Some 60)) (post (Some 10) None)
                          fresh_upload_world).1)
    = Some (HLocation (guid u))
    /\ get_object (guid u) fresh_upload_world = None
    /\ get_object (guid u)
         (create (demo_env true (Some 60)) (post (Some 10) None)
                 fresh_upload_world).2 = Some u
    /\ state u = INITIAL
    /\ upload_offset u = 0
    /\ upload_length u = 10
    /\ expires u = Some 60
    /\ lookup_header "Upload-Expires"
         (headers_of (create (demo_env true (Some 60)) (post (Some 10) None)
                             fresh_upload_world).1)
       = HTime <$> expires u
    /\ forall pk, pk <> guid u ->
         get_object pk (create (demo_env true (Some 60)) (post (Some 10) None)
                               fresh_upload_world).2
         = get_object pk fresh_upload_world.
Proof.
  refine (create_stores_one_record (demo_env true (Some 60))
            (post (Some 10) None) fresh_upload_world _).
  vm_compute. reflexivity.
Defined.

(** X7: a Create that declares no length and carries the defer signal is
    accepted, provided the serializer validates it and the configured
    maximum is not below -1 (the length a missing header stands for): it
    is answered 201 and stores a record of length -1. *)
Theorem create_deferred_length (env : Env) (request : Request) (w : World) :
  has_required_tus_header request = true ->
  req_upload_length request = None ->
  req_upload_defer_length request = Some 1 ->
  -1 <= TUS_MAX_FILE_SIZE env ->
  serializer_is_valid env (-1)
    (json_dumps env (default [] (req_upload_metadata request)))
    (dict_get "filename" EmptyString (default [] (req_upload_metadata request)))
  = true ->
  status_of (create env request w).1 = HTTP_201_CREATED
  /\ exists u,
       get_object (guid u) (create env request w).2 = Some u
       /\ upload_length u = -1 /\ upload_offset u = 0.
Proof.
  intros Hh Hlen Hdefer Hmax Hvalid.
  destruct (create_accepted env request w) as (u & Hu & ->);
    rewrite ?Hlen; simpl; auto.
  split; [done|]. exists u. split; [apply get_object_save|].
  rewrite Hu, Hlen. done.
Qed.

Lemma create_deferred_length_witness :
  status_of (create (demo_env true None) (post None (Some 1))
                    fresh_upload_world).1 = HTTP_201_CREATED.
Proof.
  refine (proj1 (create_deferred_length (demo_env true None)
                   (post None (Some 1)) fresh_upload_world _ _ _ _ _)).
  - reflexivity.
  - reflexivity.
  - reflexivity.
  - vm_compute. discriminate.
  - reflexivity.
Defined.

(** X8: Create then Inspect.  After a Create answered 201, an Inspect of
    the id in its Location header is answered 200 with Upload-Offset 0,
    and with the declared Upload-Length unless the length was deferred,
    in which case the header is left out. *)
Theorem create_then_info (env : Env) (request inspect : Request) (w : World) :
  status_of (create env request w).1 = HTTP_201_CREATED ->
  has_required_tus_header inspect = true ->
  exists g,
    lookup_header "Location" (headers_of (create env request w).1)
    = Some (HLocation g)
    /\ status_of (info env inspect g (create env request w).2) = HTTP_200_OK
    /\ lookup_header "Upload-Offset"
         (headers_of (info env inspect g (create env request w).2))
       = Some (HInt 0)
    /\ lookup_header "Upload-Length"
         (headers_of (info env inspect g (create env request w).2))
       = (if 0 <=? default (-1) (req_upload_length request)
          then Some (HInt (default (-1) (req_upload_length request)))
          else None).
Proof.
  intros (Hh & Hmax & Hdefer & Hvalid)%create_created_inv Hi.
  destruct (create_accepted _ _ w Hh Hmax Hdefer Hvalid) as (u & Hu & ->).
  exists (guid u). cbn [fst snd headers_of headers].
  split. { unfold add_expiry_header. by destruct (expires u). }
  destruct (info_found env inspect (guid u) (save u w) u Hi
              (get_object_save u w)) as (Hs & Hoff & Hlen).
  rewrite Hs, Hoff, Hlen. by rewrite Hu.
Qed.

Lemma create_then_info_witness :
  exists g,
    lookup_header "Location"
      (headers_of (create (demo_env true None) (post None (Some 1))
                          fresh_upload_world).1)
    = Some (HLocation g)
    /\ status_of (info (demo_env true None) head_request g
                      (create (demo_env true None) (post None (Some 1))
                              fresh_upload_world).2) = HTTP_200_OK
    /\ lookup_header "Upload-Offset"
         (headers_of (info (demo_env true None) head_request g
                           (create (demo_env true None) (post None (Some 1))
                                   fresh_upload_world).2))
       = Some (HInt 0)
    /\ lookup_header "Upload-Length"
         (headers_of (info (demo_env true None) head_request g
                           (create (demo_env true None) (post None (Some 1))
                                   fresh_upload_world).2))
       = None.
Proof.
  refine (create_then_info (demo_env true None) (post None (Some 1))
            head_request fresh_upload_world _ _).
  - vm_compute. reflexivity.
  - reflexivity.
Defined.

(** ** Further properties of Append *)

(** X9: an Append to a stored record that carries no Upload-Offset is
    not answered as a client error: reading the attribute raises
    AttributeError, after the lookup and before anything is changed. *)
Theorem partial_update_without_offset (env : Env) (request : Request)
    (pk : Guid) (w : World) (u : Upload) :
  has_required_tus_header request = true ->
  get_object pk w = Some u ->
  req_upload_offset request = None ->
  partial_update env request pk w = (Raised AttributeError, w).
Proof.
  intros Hh Hobj Hoff. unfold partial_update. by rewrite Hh, Hobj, Hoff.
Qed.

Lemma partial_update_without_offset_witness :
  partial_update (demo_env true None) head_request 1%N fresh_upload_world
  = (Raised AttributeError, fresh_upload_world).
Proof.
  refine (partial_update_without_offset (demo_env true None) head_request
            1%N fresh_upload_world (demo_upload INITIAL 0 5 None) _ _ _).
  - reflexivity.
  - vm_compute. reflexivity.
  - reflexivity.
Defined.

(** X10: an Append to one upload leaves every other upload alone: its
    record and its bytes in the chunk store are what they were, whatever
    the answer. *)
Theorem partial_update_other_uploads (env : Env) (request : Request)
    (pk other : Guid) (w : World) :
  other <> pk ->
  get_object other (partial_update env request pk w).2 = get_object other w
  /\ stored_bytes other (partial_update env request pk w).2
     = stored_bytes other w.
Proof.
  intros Hother.
  destruct (has_required_tus_header request) eqn:Hh.
  2:{ by rewrite partial_update_headerless. }
  destruct (get_object pk w) as [u|] eqn:Hobj.
  2:{ by rewrite partial_update_not_found. }
  pose proof (get_object_guid _ _ _ Hobj) as Hg.
  assert (other <> guid u) as Hother' by by rewrite Hg.
  found_cases env request pk w u Hh Hobj; rewrite Hpu; simpl; try done.
  - split; [by apply get_object_open_world_ne|apply stored_bytes_open_world].
  - split; [by apply get_object_open_world_ne|apply stored_bytes_open_world].
  - split; [by apply get_object_open_world_ne|apply stored_bytes_open_world].
  - split.
    + rewrite get_object_appended_world_ne by done.
      by apply get_object_open_world_ne.
    + rewrite stored_bytes_appended_world. case_decide; [done|].
      apply stored_bytes_open_world.
Qed.

Lemma partial_update_other_uploads_witness :
  get_object 2%N
    (partial_update (demo_env true None) (patch 3 None [Byte.x61]) 1%N
                    two_uploads_world).2
  = get_object 2%N two_uploads_world
  /\ stored_bytes 2%N
       (partial_update (demo_env true None) (patch 3 None [Byte.x61]) 1%N
                       two_uploads_world).2
     = stored_bytes 2%N two_uploads_world.
Proof.
  refine (partial_update_other_uploads (demo_env true None)
            (patch 3 None [Byte.x61]) 1%N 2%N two_uploads_world _).
  discriminate.
Defined.

(** X11: no Append removes the record it is addressed to or changes its
    guid, declared length, metadata, filename or expiry: whatever the
    answer, the record is still stored with those fields as they were. *)
Theorem partial_update_keeps_record (env : Env) (request : Request)
    (pk : Guid) (w : World) (u : Upload) :
  get_object pk w = Some u ->
  exists u',
    get_object pk (partial_update env request pk w).2 = Some u'
    /\ guid u' = guid u
    /\ upload_length u' = upload_length u
    /\ upload_metadata u' = upload_metadata u
    /\ filename u' = filename u
    /\ expires u' = expires u.
Proof.
  intros Hobj. pose proof (get_object_guid _ _ _ Hobj) as Hg.
  destruct (has_required_tus_header request) eqn:Hh.
  2:{ rewrite partial_update_headerless by done. by exists u. }
  assert (exists v, get_object pk (open_world u w) = Some v
                    /\ guid v = guid u /\ upload_length v = upload_length u
                    /\ upload_metadata v = upload_metadata u
                    /\ filename v = filename u /\ expires v = expires u)
    as Hopen.
  { exists (opened u). split; [by apply get_object_open_world|].
    unfold opened. by case_decide. }
  found_cases env request pk w u Hh Hobj; rewrite Hpu; simpl;
    try (by exists u); try done.
  exists (appended u (req_chunk request)).
  split; [by apply get_object_appended_world|done].
Qed.

Lemma partial_update_keeps_record_witness :
  exists u',
    get_object 2%N
      (partial_update (demo_env true None) (patch 2 None [Byte.x61]) 2%N
                      two_uploads_world).2 = Some u'
    /\ guid u' = 2%N
    /\ upload_length u' = 9
    /\ upload_metadata u' = "{}"%string
    /\ filename u' = EmptyString
    /\ expires u' = Some 50.
Proof.
  refine (partial_update_keeps_record (demo_env true None)
            (patch 2 None [Byte.x61]) 2%N two_uploads_world
            (mkUpload 2%N SAVING 2 9 "{}" EmptyString (Some 50)) _).
  vm_compute. reflexivity.
Defined.

(** X12: the offset moves only with an accepted Append, and by the
    length of the chunk.  When the answer is 204 the stored offset is the
    former offset plus the length of the chunk, the Upload-Offset header
    gives that value, and the chunk store holds the former bytes followed
    by the chunk; with any other answer the stored offset and the stored
    bytes are what they were. *)
Theorem append_offset_accounting (env : Env) (request : Request)
    (pk : Guid) (w : World) (u : Upload) :
  get_object pk w = Some u ->
  (status_of (partial_update env request pk w).1 = HTTP_204_NO_CONTENT ->
     upload_offset <$> get_object pk (partial_update env request pk w).2
     = Some (upload_offset u + Z.of_nat (List.length (req_chunk request)))
     /\ lookup_header "Upload-Offset"
          (headers_of (partial_update env request pk w).1)
        = Some (HInt (upload_offset u
                      + Z.of_nat (List.length (req_chunk request))))
     /\ stored_bytes pk (partial_update env request pk w).2
        = stored_bytes pk w ++ req_chunk request)
  /\ (status_of (partial_update env request pk w).1 <> HTTP_204_NO_CONTENT ->
       upload_offset <$> get_object pk (partial_update env request pk w).2
       = Some (upload_offset u)
       /\ stored_bytes pk (partial_update env request pk w).2
          = stored_bytes pk w).
Proof.
  intros Hobj. pose proof (get_object_guid _ _ _ Hobj) as Hg.
  destruct (has_required_tus_header request) eqn:Hh.
  2:{ rewrite partial_update_headerless by done. simpl.
      split; [done|]. intros _. by rewrite Hobj. }
  assert (upload_offset <$> get_object pk (open_world u w)
          = Some (upload_offset u)) as Hopen.
  { rewrite (get_object_open_world _ _ _ Hobj). simpl.
    by rewrite upload_offset_opened. }
  found_cases env request pk w u Hh Hobj; rewrite Hpu;
    cbn [fst snd status_of status headers_of headers].
  - split; [done|]. intros _. by rewrite Hobj.
  - split; [done|]. intros _. by rewrite Hobj.
  - split.
    + by destruct (get_chunk_inl _ _ _ Hchunk) as [-> | ->].
    + intros _. split; [done|apply stored_bytes_open_world].
  - split.
    + by destruct (checksum_rejection_status _ _ _ Hrej) as [-> | ->].
    + intros _. split; [done|apply stored_bytes_open_world].
  - split; [done|]. intros _. split; [done|apply stored_bytes_open_world].
  - split; [|done]. intros _.
    rewrite get_object_appended_world by done.
    rewrite lookup_upload_offset_header, stored_bytes_appended_world.
    rewrite decide_True by done.
    by rewrite stored_bytes_open_world.
Qed.

Lemma append_offset_accounting_witness :
  upload_offset <$>
    get_object 1%N
      (partial_update (demo_env true None)
         (patch 3 None [Byte.x61; Byte.x62]) 1%N two_uploads_world).2
  = Some 5
  /\ lookup_header "Upload-Offset"
       (headers_of (partial_update (demo_env true None)
                      (patch 3 None [Byte.x61; Byte.x62]) 1%N
                      two_uploads_world).1)
     = Some (HInt 5)
  /\ stored_bytes 1%N
       (partial_update (demo_env true None)
          (patch 3 None [Byte.x61; Byte.x62]) 1%N two_uploads_world).2
     = [Byte.x61; Byte.x61; Byte.x61; Byte.x61; Byte.x62].
Proof.
  refine (proj1 (append_offset_accounting (demo_env true None)
            (patch 3 None [Byte.x61; Byte.x62]) 1%N two_uploads_world
            (demo_upload RECEIVING 3 5 None) _) _).
  - vm_compute. reflexivity.
  - vm_compute. reflexivity.
Defined.

(** X13: a replay is refused.  When an Append of a chunk that is not
    empty has been answered 204, the same request sent again raises
    Conflict and changes nothing. *)
Theorem append_replay_conflicts (env : Env) (request : Request)
    (pk : Guid) (w : World) :
  status_of (partial_update env request pk w).1 = HTTP_204_NO_CONTENT ->
  req_chunk request <> [] ->
  partial_update env request pk (partial_update env request pk w).2
  = (Raised Conflict, (partial_update env request pk w).2).
Proof.
  intros Hok Hnonempty.
  destruct (partial_update_accepted_inv _ _ _ _ Hok)
    as (Hh & u & Hobj & Hoff0 & Hchunk0 & Hrej0 & Hstore0).
  pose proof (get_object_guid _ _ _ Hobj) as Hg.
  found_cases env request pk w u Hh Hobj; try congruence.
  rewrite Hpu. cbn [fst snd].
  unfold partial_update at 1.
  rewrite Hh, get_object_appended_world, Hoff by done.
  simpl negb. cbv iota.
  destruct (Z.eqb_spec (upload_offset u)
              (upload_offset u + Z.of_nat (List.length (req_chunk request))))
    as [Heq|Hneq].
  - destruct (req_chunk request); [done|].
    simpl List.length in Heq. lia.
  - reflexivity.
Qed.

Lemma append_replay_conflicts_witness :
  partial_update (demo_env true None) (patch 3 None [Byte.x61]) 1%N
    (partial_update (demo_env true None) (patch 3 None [Byte.x61]) 1%N
                    two_uploads_world).2
  = (Raised Conflict,
     (partial_update (demo_env true None) (patch 3 None [Byte.x61]) 1%N
                     two_uploads_world).2).
Proof.
  refine (append_replay_conflicts (demo_env true None)
            (patch 3 None [Byte.x61]) 1%N two_uploads_world _ _).
  - vm_compute. reflexivity.
  - discriminate.
Defined.


(** X15: an upload of deferred length never completes: for a stored
    record of negative length and offset at least 0, no Append sends the
    received signal. *)
Theorem deferred_length_never_received (env : Env) (request : Request)
    (pk : Guid) (w : World) (u : Upload) :
  get_object pk w = Some u ->
  upload_length u < 0 ->
  0 <= upload_offset u ->
  received (partial_update env request pk w).2 = received w.
Proof.
  intros Hobj Hlen Hpos.
  destruct (has_required_tus_header request) eqn:Hh.
  2:{ by rewrite partial_update_headerless. }
  found_cases env request pk w u Hh Hobj; rewrite Hpu; cbn [snd]; try done.
  - apply received_open_world.
  - apply received_open_world.
  - apply received_open_world.
  - rewrite received_appended_world, received_open_world.
    destruct (Z.eqb_spec (upload_length (appended u (req_chunk request)))
                (upload_offset (appended u (req_chunk request)))) as [Heq|];
      [|done].
    simpl in Heq. lia.
Qed.

Lemma deferred_length_never_received_witness :
  received (partial_update (demo_env true None) (patch 4 None [Byte.x61])
              1%N deferred_upload_world).2
  = received deferred_upload_world.
Proof.
  refine (deferred_length_never_received (demo_env true None)
            (patch 4 None [Byte.x61]) 1%N deferred_upload_world
            (demo_upload RECEIVING 4 (-1) None) _ _ _).
  - vm_compute. reflexivity.
  - vm_compute. reflexivity.
  - vm_compute. discriminate.
Defined.

(** X16: Append then Inspect.  After an Append answered 204, an Inspect
    of the same id is answered 200 and reports the Upload-Offset the
    Append returned. *)
Theorem append_then_info (env : Env) (request inspect : Request)
    (pk : Guid) (w : World) :
  status_of (partial_update env request pk w).1 = HTTP_204_NO_CONTENT ->
  has_required_tus_header inspect = true ->
  status_of (info env inspect pk (partial_update env request pk w).2)
  = HTTP_200_OK
  /\ lookup_header "Upload-Offset"
       (headers_of (info env inspect pk (partial_update env request pk w).2))
     = lookup_header "Upload-Offset"
         (headers_of (partial_update env request pk w).1).
Proof.
  intros Hok Hi.
  destruct (partial_update_accepted_inv _ _ _ _ Hok)
    as (Hh & u & Hobj & Hoff0 & Hchunk0 & Hrej0 & Hstore0).
  pose proof (get_object_guid _ _ _ Hobj) as Hg.
  found_cases env request pk w u Hh Hobj; try congruence.
  rewrite Hpu. cbn [fst snd headers_of headers].
  rewrite lookup_upload_offset_header.
  destruct (info_found env inspect pk
              (appended_world pk (appended u (req_chunk request))
                 (req_chunk request) (open_world u w))
              (appended u (req_chunk request)) Hi) as (Hs & Hoffset & _).
  { by apply get_object_appended_world. }
  by rewrite Hs, Hoffset.
Qed.

Lemma append_then_info_witness :
  status_of (info (demo_env true None) head_request 1%N
               (partial_update (demo_env true None)
                  (patch 3 None [Byte.x61]) 1%N two_uploads_world).2)
  = HTTP_200_OK
  /\ lookup_header "Upload-Offset"
       (headers_of (info (demo_env true None) head_request 1%N
                      (partial_update (demo_env true None)
                         (patch 3 None [Byte.x61]) 1%N two_uploads_world).2))
     = lookup_header "Upload-Offset"
         (headers_of (partial_update (demo_env true None)
                        (patch 3 None [Byte.x61]) 1%N two_uploads_world).1).
Proof.
  refine (append_then_info (demo_env true None) (patch 3 None [Byte.x61])
            head_request 1%N two_uploads_world _ _).
  - vm_compute. reflexivity.
  - reflexivity.
Defined.

(** ** Further properties of Terminate *)

Lemma destroy_removed_inv request pk w :
  status_of (destroy request pk w).1 = HTTP_204_NO_CONTENT ->
  exists u,
    get_object pk w = Some u
    /\ state u <> SAVING
    /\ (destroy request pk w).2 = perform_destroy u w.
Proof.
  unfold destroy. destruct (get_object pk w) as [u|]; [|done].
  case_decide; [done|]. intros _. by exists u.
Qed.

(** X17: Terminate is final.  After a Terminate answered 204, an Inspect
    of the id is answered 404, and an Append to it and a second Terminate
    raise Http404 and change nothing. *)
Theorem destroy_is_final (env : Env) (request inspect append again : Request)
    (pk : Guid) (w : World) :
  status_of (destroy request pk w).1 = HTTP_204_NO_CONTENT ->
  has_required_tus_header inspect = true ->
  has_required_tus_header append = true ->
  status_of (info env inspect pk (destroy request pk w).2) = HTTP_404_NOT_FOUND
  /\ partial_update env append pk (destroy request pk w).2
     = (Raised Http404, (destroy request pk w).2)
  /\ destroy again pk (destroy request pk w).2
     = (Raised Http404, (destroy request pk w).2).
Proof.
  intros (u & Hobj & _ & ->)%destroy_removed_inv Hi Ha.
  pose proof (get_object_guid _ _ _ Hobj) as Hg.
  assert (get_object pk (perform_destroy u w) = None) as Hgone.
  { rewrite <- Hg. apply get_object_perform_destroy. }
  split; [|split].
  - unfold info. by rewrite Hi, Hgone.
  - by apply partial_update_not_found.
  - unfold destroy. by rewrite Hgone.
Qed.

Lemma destroy_is_final_witness :
  status_of (info (demo_env true None) head_request 1%N
               (destroy delete_request 1%N two_uploads_world).2)
  = HTTP_404_NOT_FOUND
  /\ partial_update (demo_env true None) (patch 3 None [Byte.x61]) 1%N
       (destroy delete_request 1%N two_uploads_world).2
     = (Raised Http404, (destroy delete_request 1%N two_uploads_world).2)
  /\ destroy delete_request 1%N
       (destroy delete_request 1%N two_uploads_world).2
     = (Raised Http404, (destroy delete_request 1%N two_uploads_world).2).
Proof.
  refine (destroy_is_final (demo_env true None) delete_request head_request
            (patch 3 None [Byte.x61]) delete_request 1%N two_uploads_world
            _ _ _).
  - vm_compute. reflexivity.
  - reflexivity.
  - reflexivity.
Defined.

(** X18: a Terminate of one upload leaves every other upload alone: its
    record and its bytes in the chunk store are what they were, and no
    Terminate sends the received signal. *)
Theorem destroy_other_uploads (request : Request) (pk other : Guid)
    (w : World) :
  other <> pk ->
  get_object other (destroy request pk w).2 = get_object other w
  /\ stored_bytes other (destroy request pk w).2 = stored_bytes other w
  /\ received (destroy request pk w).2 = received w.
Proof.
  intros Hother. unfold destroy.
  destruct (get_object pk w) as [u|] eqn:Hobj; [|done].
  pose proof (get_object_guid _ _ _ Hobj) as Hg.
  case_decide; [done|]. simpl.
  unfold get_object, get_queryset, stored_bytes, perform_destroy; simpl.
  rewrite Hg. by rewrite !lookup_delete_ne.
Qed.

Lemma destroy_other_uploads_witness :
  get_object 2%N (destroy delete_request 1%N two_uploads_world).2
  = get_object 2%N two_uploads_world
  /\ stored_bytes 2%N (destroy delete_request 1%N two_uploads_world).2
     = stored_bytes 2%N two_uploads_world
  /\ received (destroy delete_request 1%N two_uploads_world).2
     = received two_uploads_world.
Proof.
  refine (destroy_other_uploads delete_request 1%N 2%N two_uploads_world _).
  discriminate.
Defined.

End Tus.
